(** * AIPropositionAgent: a shallow embedding of the four-stage pipeline

    The development follows [src/python/AIPropositionAgent.py].  The agent
    object becomes a record [Agent]; the logger and the wall clock live next
    to it in a [World]; every public method is a computation in a small
    state-and-exception monad [M] in which, as in Python, the mutations done
    before a [raise] stay visible afterwards.  The helper methods of the class
    (the overridable policies) are gathered in a record [Methods]; the bodies
    written in the class are the instance [builtin]. *)

From Stdlib Require Import QArith.
From stdpp Require Import base list strings gmap.

(** ** Python values *)

(** The dynamically typed payloads that travel through the pipeline.  A
    dictionary keeps its insertion order, so it is an association list. *)
#[warnings="-register-all"]
Inductive pyval : Type :=
| VNone
| VBool (b : bool)
| VFloat (q : Q)
| VStr (s : string)
| VTime (t : nat)
| VList (l : list pyval)
| VDict (d : list (string * pyval)).

Abbreviation pydict := (list (string * pyval)).

(** Truth value testing, as done by [if x] and [not x]. *)
Definition truthy (v : pyval) : bool :=
  match v with
  | VNone => false
  | VBool b => b
  | VFloat q => negb (Qeq_bool q 0)
  | VStr s => negb (bool_decide (s = EmptyString))
  | VTime _ => true
  | VList l => match l with [] => false | _ => true end
  | VDict d => match d with [] => false | _ => true end
  end.

(** [d.get(k)] and [d.get(k, default)]. *)
Fixpoint dict_find (k : string) (d : pydict) : option pyval :=
  match d with
  | [] => None
  | (k', v) :: d' => if bool_decide (k' = k) then Some v else dict_find k d'
  end.

Definition dict_get (k : string) (d : pydict) : pyval :=
  default VNone (dict_find k d).

Definition dict_get_or (k : string) (dflt : pyval) (d : pydict) : pyval :=
  default dflt (dict_find k d).

(** [d[k] = v]: overwrite in place when the key exists, else add at the end. *)
Fixpoint dict_set (k : string) (v : pyval) (d : pydict) : pydict :=
  match d with
  | [] => [(k, v)]
  | (k', v') :: d' =>
      if bool_decide (k' = k) then (k, v) :: d' else (k', v') :: dict_set k v d'
  end.

(** ** String operations used by the helpers *)

Fixpoint startswith (sub s : string) : bool :=
  match sub with
  | EmptyString => true
  | String a sub' =>
      match s with
      | EmptyString => false
      | String b s' => bool_decide (a = b) && startswith sub' s'
      end
  end.

(** [sub in s] on strings: [sub] occurs somewhere in [s]. *)
Fixpoint py_in (sub s : string) : bool :=
  startswith sub s ||
  match s with
  | EmptyString => false
  | String _ s' => py_in sub s'
  end.

(** [s.replace(old, new)] for a non-empty [old]: a left-to-right scan that
    replaces every occurrence not overlapping an earlier one.  [skip] counts
    the characters of the current occurrence still to be dropped. *)
Fixpoint replace_from (old new : string) (skip : nat) (s : string) : string :=
  match s with
  | EmptyString => EmptyString
  | String c s' =>
      match skip with
      | S k => replace_from old new k s'
      | O =>
          if startswith old s
          then new +:+ replace_from old new (String.length old - 1) s'
          else String c (replace_from old new 0 s')
      end
  end.

Definition py_replace (old new s : string) : string := replace_from old new 0 s.

(** [len(s)]: a string is held as the bytes of its UTF-8 encoding, of which
    [len] counts the characters, that is the bytes that do not continue one
    (those of the form 10xxxxxx do). *)
Definition continuation (c : Ascii.ascii) : bool :=
  match c with
  | Ascii.Ascii _ _ _ _ _ _ b6 b7 => b7 && negb b6
  end.

Fixpoint py_len (s : string) : nat :=
  match s with
  | EmptyString => O
  | String c s' => if continuation c then py_len s' else S (py_len s')
  end.

(** [l.remove(x)]: drop the first element equal to [x].  (Python raises when
    there is none; the only call site removes an element just read from the
    list.) *)
Fixpoint list_remove (x : string) (l : list string) : list string :=
  match l with
  | [] => []
  | y :: l' => if bool_decide (y = x) then l' else y :: list_remove x l'
  end.

(** ** The agent and its world *)

Record EvidenceRecord := { source : string; data : pyval }.

Record Agent := {
  premises : list string;
  hypothesis : string;
  statement : string;
  evidence : list EvidenceRecord;
  expert_data : pydict;
  group_feedback : pyval;
  confidence_scores : gmap string Q
}.

(** [__init__] *)
Definition init : Agent :=
  {| premises := []; hypothesis := EmptyString; statement := EmptyString;
     evidence := []; expert_data := []; group_feedback := VList [];
     confidence_scores := ∅ |}.

Definition set_premises (l : list string) (a : Agent) : Agent :=
  {| premises := l; hypothesis := hypothesis a; statement := statement a;
     evidence := evidence a; expert_data := expert_data a;
     group_feedback := group_feedback a;
     confidence_scores := confidence_scores a |}.

Definition set_hypothesis (h : string) (a : Agent) : Agent :=
  {| premises := premises a; hypothesis := h; statement := statement a;
     evidence := evidence a; expert_data := expert_data a;
     group_feedback := group_feedback a;
     confidence_scores := confidence_scores a |}.

Definition set_statement (s : string) (a : Agent) : Agent :=
  {| premises := premises a; hypothesis := hypothesis a; statement := s;
     evidence := evidence a; expert_data := expert_data a;
     group_feedback := group_feedback a;
     confidence_scores := confidence_scores a |}.

Definition set_evidence (e : list EvidenceRecord) (a : Agent) : Agent :=
  {| premises := premises a; hypothesis := hypothesis a;
     statement := statement a; evidence := e; expert_data := expert_data a;
     group_feedback := group_feedback a;
     confidence_scores := confidence_scores a |}.

Definition set_expert_data (d : pydict) (a : Agent) : Agent :=
  {| premises := premises a; hypothesis := hypothesis a;
     statement := statement a; evidence := evidence a; expert_data := d;
     group_feedback := group_feedback a;
     confidence_scores := confidence_scores a |}.

Definition set_group_feedback (g : pyval) (a : Agent) : Agent :=
  {| premises := premises a; hypothesis := hypothesis a;
     statement := statement a; evidence := evidence a;
     expert_data := expert_data a; group_feedback := g;
     confidence_scores := confidence_scores a |}.

Definition set_confidence_scores (c : gmap string Q) (a : Agent) : Agent :=
  {| premises := premises a; hypothesis := hypothesis a;
     statement := statement a; evidence := evidence a;
     expert_data := expert_data a; group_feedback := group_feedback a;
     confidence_scores := c |}.

(** What an f-string hands to the logger: the literal text, or a literal
    prefix followed by one interpolated value (kept as a value, its rendering
    is not modelled). *)
Inductive Output : Type :=
| Text (s : string)
| Fmt (prefix : string) (v : pyval).

Record LogEntry := { le_time : nat; le_step : string; le_output : Output }.

(** [logger] holds the entries written so far, the newest first.  [clock]
    counts the readings of [datetime.now()] made so far; the k-th reading
    yields the timestamp k. *)
Record World := { agent : Agent; logger : list LogEntry; clock : nat }.

Definition fresh : World := {| agent := init; logger := []; clock := 0 |}.

Inductive exn : Type :=
| ValueError (msg : string)
| AttributeError (attr : string)
| KeyError (key : string).

Inductive outcome (A : Type) : Type :=
| Raised (e : exn)
| Returned (x : A).
Arguments Raised {A} e.
Arguments Returned {A} x.

(** ** The monad *)
Module PyMonad.

Definition M (A : Type) : Type := World → outcome A * World.

Definition ret {A} (x : A) : M A := λ w, (Returned x, w).

Definition bind {A B} (c : M A) (k : A → M B) (w : World)
  : outcome B * World :=
  match c w with
  | (Returned x, w') => k x w'
  | (Raised e, w') => (Raised e, w')
  end.

Definition raise {A} (e : exn) : M A := λ w, (Raised e, w).

(** read [self] *)
Definition self : M Agent := λ w, (Returned (agent w), w).

(** mutate [self] *)
Definition update (f : Agent → Agent) : M unit :=
  λ w, (Returned tt,
        {| agent := f (agent w); logger := logger w; clock := clock w |}).

(** [datetime.now()] *)
Definition now : M nat :=
  λ w, (Returned (clock w),
        {| agent := agent w; logger := logger w; clock := S (clock w) |}).

(** [logger.info] *)
Definition emit (e : LogEntry) : M unit :=
  λ w, (Returned tt,
        {| agent := agent w; logger := e :: logger w; clock := clock w |}).

(** [if not cond: raise e] *)
Definition require (cond : bool) (e : exn) : M unit :=
  if cond then ret tt else raise e.

(** [d[k]] *)
Definition subscript (d : pydict) (k : string) : M pyval :=
  match dict_find k d with
  | Some v => ret v
  | None => raise (KeyError k)
  end.

End PyMonad.
Import PyMonad.

Declare Scope py_scope.
Delimit Scope py_scope with py.
Notation "x <- c ;; k" := (bind c (λ x, k))
  (at level 100, c at next level, right associativity) : py_scope.
Notation "c ;; k" := (bind c (λ _, k))
  (at level 100, right associativity) : py_scope.
Local Open Scope py_scope.

(** ** Inputs and results *)

(** The dictionary handed to [define_proposition] and [gather_evidence], with
    one field per key the code reads.  A payload the code only passes on is a
    [pyval] ([VNone] when the key is absent, which is what [.get] returns);
    the keys read with their own default or used as text are typed, an
    absent key being [None]. *)
Record InputData := {
  context : pyval;
  initial_premises : option (list string);
  phenomenon : option string;
  effect : option string;
  use_case : pyval;
  domain : pyval;
  initial_data : option pyval;
  target : pyval;
  data_sources : pyval;
  controls : pyval;
  time_sensitive : pyval;
  group : pyval
}.

(** [{"data_sources": v}] *)
Definition only_data_sources (v : pyval) : InputData :=
  {| context := VNone; initial_premises := None; phenomenon := None;
     effect := None; use_case := VNone; domain := VNone;
     initial_data := None; target := VNone; data_sources := v;
     controls := VNone; time_sensitive := VNone; group := VNone |}.

(** [{"statement": ..., "premises": ...}] *)
Record Proposition := { p_statement : string; p_premises : list string }.

(** [{"statement": ..., "confidence": ...}] *)
Record Evaluation := { e_statement : string; e_confidence : gmap string Q }.

(** [{"truth": True, "statement": ..., "confidence": ...}] and
    [{"truth": False, "reason": ...}] *)
Inductive Conclusion : Type :=
| Truth (stmt : string) (confidence : gmap string Q)
| NoTruth (reason : string).

Definition truth (c : Conclusion) : bool :=
  match c with Truth _ _ => true | NoTruth _ => false end.

(** ** The helper methods *)

(** A helper is a function of the arguments it is called with; the two whose
    body in the class reads a field of [self], [build_arguments] and
    [refine_hypothesis], receive the agent as well.  [frame_practical] is
    called by [define_proposition] but the class has no such attribute: its
    slot is optional, and empty in [builtin]. *)
Record Methods := {
  evaluate_clarity : string → Q;
  is_falsifiable : string → bool;
  context_match : string → pyval → bool;
  clarify_statement : string → string;
  is_assessable : string → bool;
  frame_practical : option (string → pyval → string);
  is_actionable : string → bool;
  prepare_for_group : string → string;
  find_expert : pyval → pydict;
  simulate_gut : pyval → pyval;
  observe_phenomena : pyval → pyval;
  (** the second argument is the reading of [datetime.now()] *)
  record_data : nat → pyval → pyval;
  build_arguments : Agent → list string → pyval → pyval;
  list_beliefs : pyval → pyval;
  gather_facts : pyval → pyval → pyval;
  apply_scenario : string → pyval → pyval;
  conduct_experiment : string → pyval → pyval;
  is_outdated : pyval → pyval → bool;
  refresh_data : pyval → pyval;
  review_credentials : pydict → pyval;
  consult_group : string → pyval → pyval;
  cross_check_logic : string → list EvidenceRecord → pydict;
  test_consistency : list string → list EvidenceRecord → pydict;
  check_fit : string → list EvidenceRecord → pydict;
  compare_facts : string → list EvidenceRecord → pydict;
  verify_repeatability : list EvidenceRecord → pydict;
  analyze_data : list EvidenceRecord → pydict;
  update_bayesian : pydict → Q;
  evaluate_outcomes : pydict → pydict;
  evaluate_testimony : pydict → pydict;
  gauge_consensus : pyval → pydict;
  conclude_rationally : Evaluation → pydict;
  accept_belief : string → Evaluation → pydict;
  conclude_alignment : string → Evaluation → pydict;
  accept_empirically : Evaluation → pydict;
  refine_hypothesis : Agent → Evaluation → pydict;
  deem_practical : Evaluation → pydict;
  trust_authority : pydict → pydict;
  consider_consensus : Evaluation → pydict
}.

(** The helper bodies of the class, lines 282 to 394. *)
Definition builtin : Methods := {|
  evaluate_clarity := λ _, 0.8%Q;
  is_falsifiable := λ h, py_in "causes" h;
  context_match := λ _ _, true;
  clarify_statement := λ s, py_replace "causes" "leads to" s;
  is_assessable := λ s, bool_decide (10 < py_len s)%nat;
  frame_practical := None;
  is_actionable := λ s, py_in "leads to" s;
  prepare_for_group := λ s, "Proposition: " +:+ s;
  find_expert := λ _,
    [("name", VStr "Expert"); ("credentials", VStr "PhD");
     ("reliability", VFloat 0.9%Q)];
  simulate_gut := λ _, VList [VStr "Positive initial insight"];
  observe_phenomena := λ _, VList [VStr "Observation data"];
  record_data := λ t obs, VDict [("data", obs); ("timestamp", VTime t)];
  build_arguments := λ a ps _,
    VList ((λ p, VStr (p +:+ " supports " +:+ statement a)) <$> ps);
  list_beliefs := λ args, args;
  gather_facts := λ _ _, VList [VStr "Fact 1"; VStr "Fact 2"];
  apply_scenario := λ _ _, VDict [("results", VStr "Scenario applied")];
  conduct_experiment := λ _ _, VDict [("data", VStr "Experiment results")];
  is_outdated := λ _ _, false;
  refresh_data := λ _, VDict [("data", VStr "Updated results")];
  review_credentials := λ e, dict_get_or "reliability" (VFloat 0.0%Q) e;
  consult_group := λ _ _,
    VList [VDict [("member", VStr "Peer"); ("feedback", VStr "Agree")]];
  cross_check_logic := λ _ _, [("valid", VBool true)];
  test_consistency := λ _ _, [("consistent", VBool true)];
  check_fit := λ _ _, [("coherent", VBool true)];
  compare_facts := λ _ _, [("aligned", VBool true)];
  verify_repeatability := λ _, [("reliable", VBool true)];
  analyze_data := λ _,
    [("patterns", VList [VStr "Pattern 1"]); ("new_patterns", VBool false)];
  update_bayesian := λ _, 0.85%Q;
  evaluate_outcomes := λ _, [("useful", VBool true)];
  evaluate_testimony := λ _, [("relevant", VBool true)];
  gauge_consensus := λ _, [("broad", VBool true)];
  conclude_rationally := λ _, [("valid", VBool true)];
  accept_belief := λ _ _, [("coherent", VBool true)];
  conclude_alignment := λ _ _, [("matched", VBool true)];
  accept_empirically := λ _, [("supported", VBool true)];
  refine_hypothesis := λ a _,
    [("hypothesis", VStr (hypothesis a)); ("confidence", VFloat 0.85%Q)];
  deem_practical := λ _, [("effective", VBool true)];
  trust_authority := λ _, [("credible", VBool true)];
  consider_consensus := λ _, [("agreed", VBool true)]
|}.

(** ** The methods of the agent *)

(** [log_step], lines 20 to 22. *)
Definition log_step (step : string) (output : Output) : M unit :=
  t <- now ;;
  emit {| le_time := t; le_step := step; le_output := output |}.

(** [schedule_monitoring], lines 396 and 397. *)
Definition schedule_monitoring : M unit :=
  log_step "Monitoring" (Text "Scheduled for future re-evaluation.").

(** The initial Bayesian prior, [0.7], also the clarity threshold. *)
Definition prior : Q := 0.7%Q.

(** [clarity_score > 0.7] *)
Definition clear_enough (score : Q) : bool := negb (Qle_bool score prior).

(** The loop of lines 35 to 40.  Python's list iterator is an index into the
    live list: each round reads [self.premises[i]], stops when [i] is out of
    range, and moves to [i + 1] whatever the body did to the list. *)
Fixpoint premises_loop (m : Methods) (fuel i : nat) (a : Agent) : Agent :=
  match fuel with
  | O => a
  | S fuel' =>
      match premises a !! i with
      | None => a
      | Some premise =>
          if clear_enough (evaluate_clarity m premise)
          then premises_loop m fuel' (S i)
                 (set_confidence_scores
                    (<[premise := prior]> (confidence_scores a)) a)
          else premises_loop m fuel' (S i)
                 (set_premises (list_remove premise (premises a)) a)
      end
  end.

(** The list never grows and the index moves on each round, so the length of
    the list at entry bounds the number of rounds. *)
Definition identify_premises (m : Methods) (a : Agent) : Agent :=
  premises_loop m (length (premises a)) 0 a.

Definition strs (l : list string) : pyval := VList (VStr <$> l).

(** [define_proposition], lines 24 to 86. *)
Definition define_proposition (m : Methods) (input_data : InputData)
  : M Proposition :=
  (* 1.1 Mind Quieting *)
  log_step "Mind Quieting" (Text "Initializing focus state.") ;;
  require (truthy (context input_data))
    (ValueError "Context required for focus.") ;;
  log_step "Mind Quieting" (Text "Focus state achieved.") ;;
  (* 1.2 Premises Identification *)
  log_step "Premises Identification" (Text "Listing self-evident truths.") ;;
  update (set_premises (default [] (initial_premises input_data))) ;;
  update (identify_premises m) ;;
  a <- self ;;
  log_step "Premises Identification" (Fmt "Premises: " (strs (premises a))) ;;
  (* 1.3 Hypothesis Formation *)
  log_step "Hypothesis Formation" (Text "Formulating hypothesis.") ;;
  let phen := default EmptyString (phenomenon input_data) in
  require (negb (bool_decide (phen = EmptyString)))
    (ValueError "Phenomenon required for hypothesis.") ;;
  update (set_hypothesis
            (phen +:+ " causes " +:+
             default "an outcome" (effect input_data) +:+ ".")) ;;
  a <- self ;;
  require (is_falsifiable m (hypothesis a))
    (ValueError "Hypothesis must be falsifiable.") ;;
  log_step "Hypothesis Formation" (Fmt "Hypothesis: " (VStr (hypothesis a))) ;;
  (* 1.4 Statement Identification *)
  log_step "Statement Identification" (Text "Isolating key claim.") ;;
  update (λ a, set_statement (hypothesis a) a) ;;
  a <- self ;;
  require (context_match m (statement a) (context input_data))
    (ValueError "Statement does not match context.") ;;
  log_step "Statement Identification" (Fmt "Statement: " (VStr (statement a))) ;;
  (* 1.5 Belief Clarification *)
  log_step "Belief Clarification" (Text "Rephrasing for precision.") ;;
  update (λ a, set_statement (clarify_statement m (statement a)) a) ;;
  a <- self ;;
  require (is_assessable m (statement a))
    (ValueError "Statement not assessable.") ;;
  log_step "Belief Clarification" (Fmt "Clarified: " (VStr (statement a))) ;;
  (* 1.6 Claim Definition *)
  log_step "Claim Definition" (Text "Framing for practical use.") ;;
  match frame_practical m with
  | None => raise (AttributeError "frame_practical")
  | Some frame =>
      update (λ a, set_statement
                     (frame (statement a) (use_case input_data)) a) ;;
      a <- self ;;
      require (is_actionable m (statement a))
        (ValueError "Claim not actionable.") ;;
      log_step "Claim Definition" (Fmt "Practical claim: " (VStr (statement a))) ;;
      (* 1.7 Proposition Articulation *)
      log_step "Proposition Articulation" (Text "Preparing for group share.") ;;
      let articulated := prepare_for_group m (statement a) in
      log_step "Proposition Articulation"
        (Fmt "Articulated: " (VStr articulated)) ;;
      (* 1.8 Expert Identification *)
      log_step "Expert Identification" (Text "Searching for experts.") ;;
      update (set_expert_data (find_expert m (domain input_data))) ;;
      a <- self ;;
      require (truthy (dict_get "credentials" (expert_data a)))
        (ValueError "No qualified expert found.") ;;
      name <- subscript (expert_data a) "name" ;;
      log_step "Expert Identification" (Fmt "Expert: " name) ;;
      a <- self ;;
      ret {| p_statement := statement a; p_premises := premises a |}
  end.

(** [self.evidence.append({"source": src, "data": d})] *)
Definition append_evidence (src : string) (d : pyval) : M unit :=
  update (λ a, set_evidence (evidence a ++ [{| source := src; data := d |}]) a).

(** [gather_evidence], lines 88 to 152.  The record of the expert holds the
    dictionary of the agent as it is when appended; in the source it is that
    dictionary itself, which a later call updates in place, so what is
    stated below about records of earlier calls is stated of their
    sources. *)
Definition gather_evidence (m : Methods) (ctx : InputData)
  : M (list EvidenceRecord) :=
  (* 2.1 Gut Tuning *)
  log_step "Gut Tuning" (Text "Simulating intuitive insights.") ;;
  let gut_insights :=
    simulate_gut m (default (VList []) (initial_data ctx)) in
  append_evidence "intuition" gut_insights ;;
  log_step "Gut Tuning" (Fmt "Insights: " gut_insights) ;;
  (* 2.2 Phenomena Observation *)
  log_step "Phenomena Observation" (Text "Collecting sensory data.") ;;
  let observations := observe_phenomena m (target ctx) in
  append_evidence "observation" observations ;;
  log_step "Phenomena Observation" (Fmt "Observations: " observations) ;;
  (* 2.3 Experience Recording *)
  log_step "Experience Recording" (Text "Documenting observations.") ;;
  t <- now ;;
  let recorded_data := record_data m t observations in
  append_evidence "recorded" recorded_data ;;
  log_step "Experience Recording" (Fmt "Recorded: " recorded_data) ;;
  (* 2.4 Argument Building *)
  log_step "Argument Building" (Text "Constructing logical arguments.") ;;
  a <- self ;;
  let arguments := build_arguments m a (premises a) recorded_data in
  append_evidence "arguments" arguments ;;
  log_step "Argument Building" (Fmt "Arguments: " arguments) ;;
  (* 2.5 Beliefs Listing *)
  log_step "Beliefs Listing" (Text "Compiling related beliefs.") ;;
  let beliefs := list_beliefs m arguments in
  append_evidence "beliefs" beliefs ;;
  log_step "Beliefs Listing" (Fmt "Beliefs: " beliefs) ;;
  (* 2.6 Facts Gathering *)
  log_step "Facts Gathering" (Text "Collecting real-world data.") ;;
  let facts := gather_facts m beliefs (data_sources ctx) in
  append_evidence "facts" facts ;;
  log_step "Facts Gathering" (Fmt "Facts: " facts) ;;
  (* 2.7 Scenario Application *)
  log_step "Scenario Application" (Text "Testing in real-world scenario.") ;;
  a <- self ;;
  let results := apply_scenario m (statement a) facts in
  append_evidence "scenario" results ;;
  log_step "Scenario Application" (Fmt "Results: " results) ;;
  (* 2.8 Experiment Conducting *)
  log_step "Experiment Conducting" (Text "Running structured tests.") ;;
  a <- self ;;
  let exp_data := conduct_experiment m (statement a) (controls ctx) in
  append_evidence "experiment" exp_data ;;
  let exp_data :=
    if is_outdated m exp_data (time_sensitive ctx)
    then refresh_data m (data_sources ctx)
    else exp_data in
  log_step "Experiment Conducting" (Fmt "Experiment data: " exp_data) ;;
  (* 2.9 Credentials Review *)
  log_step "Credentials Review" (Text "Verifying expert reliability.") ;;
  update (λ a, set_expert_data
                 (dict_set "reliability"
                    (review_credentials m (expert_data a)) (expert_data a))
                 a) ;;
  a <- self ;;
  append_evidence "expert" (VDict (expert_data a)) ;;
  reliability <- subscript (expert_data a) "reliability" ;;
  log_step "Credentials Review" (Fmt "Expert reliability: " reliability) ;;
  (* 2.10 Group Consultation *)
  log_step "Group Consultation" (Text "Gathering group feedback.") ;;
  update (λ a, set_group_feedback
                 (consult_group m (statement a) (group ctx)) a) ;;
  a <- self ;;
  append_evidence "group" (group_feedback a) ;;
  log_step "Group Consultation" (Fmt "Feedback: " (group_feedback a)) ;;
  a <- self ;;
  ret (evidence a).

(** The truth value of [d[key]], when the key is there. *)
Definition verdict (d : pydict) (key : string) : option bool :=
  truthy <$> dict_find key d.

(** One gated check of the later stages:
    [if not d[key]: raise ValueError(msg)]. *)
Definition check (d : pydict) (key msg : string) : M unit :=
  match verdict d key with
  | Some true => ret tt
  | Some false => raise (ValueError msg)
  | None => raise (KeyError key)
  end.

(** [evaluate_proposition], lines 154 to 220.  The parameter [evidence] is
    only read, and not after the nested call of step 3.6, so it is passed by
    value even where the caller hands in [self.evidence] itself. *)
Definition evaluate_proposition (m : Methods) (evidence_arg : list EvidenceRecord)
  : M Evaluation :=
  (* 3.1 Logic Cross-Check *)
  log_step "Logic Cross-Check" (Text "Validating with logic.") ;;
  a <- self ;;
  let logic_check := cross_check_logic m (statement a) evidence_arg in
  check logic_check "valid" "Logic check failed." ;;
  log_step "Logic Cross-Check" (Fmt "Logic valid: " (VDict logic_check)) ;;
  (* 3.2 Consistency Testing *)
  log_step "Consistency Testing" (Text "Testing for logical consistency.") ;;
  a <- self ;;
  let consistency := test_consistency m (premises a) evidence_arg in
  check consistency "consistent" "Inconsistent reasoning." ;;
  log_step "Consistency Testing" (Fmt "Consistency: " (VDict consistency)) ;;
  (* 3.3 Fit Checking *)
  log_step "Fit Checking" (Text "Checking belief fit.") ;;
  a <- self ;;
  let fit := check_fit m (statement a) (evidence a) in
  check fit "coherent" "Belief fit failed." ;;
  log_step "Fit Checking" (Fmt "Fit: " (VDict fit)) ;;
  (* 3.4 Statement Comparison *)
  log_step "Statement Comparison" (Text "Comparing to facts.") ;;
  a <- self ;;
  let match_ := compare_facts m (statement a) evidence_arg in
  check match_ "aligned" "Statement does not match facts." ;;
  log_step "Statement Comparison" (Fmt "Match: " (VDict match_)) ;;
  (* 3.5 Repeatability Verification *)
  log_step "Repeatability Verification" (Text "Verifying repeatability.") ;;
  let repeatability := verify_repeatability m evidence_arg in
  check repeatability "reliable" "Data not repeatable." ;;
  log_step "Repeatability Verification"
    (Fmt "Repeatability: " (VDict repeatability)) ;;
  (* 3.6 Data Analysis *)
  log_step "Data Analysis" (Text "Analyzing for patterns.") ;;
  let analysis := analyze_data m evidence_arg in
  update (λ a, set_confidence_scores
                 (<["posterior" := update_bayesian m analysis]>
                    (confidence_scores a)) a) ;;
  (if truthy (dict_get "new_patterns" analysis)
   then gather_evidence m (only_data_sources (dict_get "new_sources" analysis)) ;;
        ret tt
   else ret tt) ;;
  log_step "Data Analysis" (Fmt "Analysis: " (VDict analysis)) ;;
  (* 3.7 Outcomes Evaluation *)
  log_step "Outcomes Evaluation" (Text "Evaluating practical value.") ;;
  let outcomes := evaluate_outcomes m analysis in
  check outcomes "useful" "Outcomes not practical." ;;
  log_step "Outcomes Evaluation" (Fmt "Outcomes: " (VDict outcomes)) ;;
  (* 3.8 Testimony Evaluation *)
  log_step "Testimony Evaluation" (Text "Assessing expert input.") ;;
  a <- self ;;
  let testimony := evaluate_testimony m (expert_data a) in
  check testimony "relevant" "Expert testimony not relevant." ;;
  log_step "Testimony Evaluation" (Fmt "Testimony: " (VDict testimony)) ;;
  (* 3.9 Agreement Gauging *)
  log_step "Agreement Gauging" (Text "Measuring group consensus.") ;;
  a <- self ;;
  let consensus := gauge_consensus m (group_feedback a) in
  check consensus "broad" "No broad consensus." ;;
  log_step "Agreement Gauging" (Fmt "Consensus: " (VDict consensus)) ;;
  a <- self ;;
  ret {| e_statement := statement a; e_confidence := confidence_scores a |}.

(** One check of the conclusion that answers instead of raising:
    [if not d[key]: return {"truth": False, "reason": reason}].  The result
    is [Some] of the early answer, or [None] to go on. *)
Definition settle (d : pydict) (key reason : string) : M (option Conclusion) :=
  match verdict d key with
  | Some true => ret None
  | Some false => ret (Some (NoTruth reason))
  | None => raise (KeyError key)
  end.

(** [conclude_proposition], lines 222 to 279. *)
Definition conclude_proposition (m : Methods) (evaluation : Evaluation)
  : M Conclusion :=
  (* 4.1 Rational Conclusion *)
  log_step "Rational Conclusion" (Text "Checking logical validity.") ;;
  let rational := conclude_rationally m evaluation in
  check rational "valid" "Rational conclusion failed." ;;
  log_step "Rational Conclusion" (Fmt "Rational: " (VDict rational)) ;;
  (* 4.2 Belief Acceptance *)
  log_step "Belief Acceptance" (Text "Checking belief integration.") ;;
  a <- self ;;
  let integration := accept_belief m (statement a) evaluation in
  check integration "coherent" "Belief not integrated." ;;
  log_step "Belief Acceptance" (Fmt "Integration: " (VDict integration)) ;;
  (* 4.3 Alignment Conclusion *)
  log_step "Alignment Conclusion" (Text "Verifying fact alignment.") ;;
  a <- self ;;
  let alignment := conclude_alignment m (statement a) evaluation in
  early <- settle alignment "matched" "No fact alignment" ;;
  match early with Some answer => ret answer | None =>
  log_step "Alignment Conclusion" (Fmt "Alignment: " (VDict alignment)) ;;
  (* 4.4 Empirical Acceptance *)
  log_step "Empirical Acceptance" (Text "Checking evidence support.") ;;
  let empirical := accept_empirically m evaluation in
  early <- settle empirical "supported" "No empirical support" ;;
  match early with Some answer => ret answer | None =>
  log_step "Empirical Acceptance" (Fmt "Empirical: " (VDict empirical)) ;;
  (* 4.5 Hypothesis Refinement *)
  log_step "Hypothesis Refinement" (Text "Refining hypothesis.") ;;
  a <- self ;;
  let hypothesis_ := refine_hypothesis m a evaluation in
  log_step "Hypothesis Refinement" (Fmt "Hypothesis: " (VDict hypothesis_)) ;;
  (* 4.6 Practical Deeming *)
  log_step "Practical Deeming" (Text "Checking practical value.") ;;
  let practical := deem_practical m evaluation in
  early <- settle practical "effective" "Not practical" ;;
  match early with Some answer => ret answer | None =>
  log_step "Practical Deeming" (Fmt "Practical: " (VDict practical)) ;;
  (* 4.7 Authority Trusting *)
  log_step "Authority Trusting" (Text "Verifying expert credibility.") ;;
  a <- self ;;
  let authority := trust_authority m (expert_data a) in
  early <- settle authority "credible" "Expert not credible" ;;
  match early with Some answer => ret answer | None =>
  log_step "Authority Trusting" (Fmt "Authority: " (VDict authority)) ;;
  (* 4.8 Consensus Consideration *)
  log_step "Consensus Consideration" (Text "Finalizing with consensus.") ;;
  let consensus := consider_consensus m evaluation in
  early <- settle consensus "agreed" "No consensus" ;;
  match early with Some answer => ret answer | None =>
  log_step "Consensus Consideration" (Fmt "Consensus: " (VDict consensus)) ;;
  schedule_monitoring ;;
  a <- self ;;
  ret (Truth (statement a) (confidence_scores a))
  end end end end end.

(** The input of the [__main__] block, lines 401 to 411. *)
Definition main_input : InputData :=
  {| context := VStr "Workplace motivation";
     initial_premises := Some ["Recognition motivates"; "Effort impacts output"];
     phenomenon := Some "Employee recognition";
     effect := Some "increased productivity";
     use_case := VStr "Team performance";
     domain := VStr "Organizational psychology";
     initial_data := None; target := VNone;
     data_sources := VList [VStr "Web"; VStr "X posts"];
     controls := VNone;
     time_sensitive := VBool false;
     group := VList [VStr "Colleagues"; VStr "Experts"] |}.


(** ** Scripted helpers *)

(** A subclass that overrides some helpers with scripted answers and keeps
    the others. *)
Record Script := {
  s_clarity : string → Q;
  s_frame : option (string → pyval → string);
  s_outdated : bool;
  s_logic_valid : bool;
  s_new_patterns : bool;
  s_rational_valid : bool;
  s_credible : bool
}.

Definition scripted (s : Script) : Methods := {|
  evaluate_clarity := λ p, s_clarity s p;
  is_falsifiable := is_falsifiable builtin;
  context_match := context_match builtin;
  clarify_statement := clarify_statement builtin;
  is_assessable := is_assessable builtin;
  frame_practical := s_frame s;
  is_actionable := is_actionable builtin;
  prepare_for_group := prepare_for_group builtin;
  find_expert := find_expert builtin;
  simulate_gut := simulate_gut builtin;
  observe_phenomena := observe_phenomena builtin;
  record_data := record_data builtin;
  build_arguments := build_arguments builtin;
  list_beliefs := list_beliefs builtin;
  gather_facts := gather_facts builtin;
  apply_scenario := apply_scenario builtin;
  conduct_experiment := conduct_experiment builtin;
  is_outdated := λ _ _, s_outdated s;
  refresh_data := refresh_data builtin;
  review_credentials := review_credentials builtin;
  consult_group := consult_group builtin;
  cross_check_logic := λ _ _, [("valid", VBool (s_logic_valid s))];
  test_consistency := test_consistency builtin;
  check_fit := check_fit builtin;
  compare_facts := compare_facts builtin;
  verify_repeatability := verify_repeatability builtin;
  analyze_data := λ _,
    [("patterns", VList [VStr "Pattern 1"]);
     ("new_patterns", VBool (s_new_patterns s));
     ("new_sources", VList [VStr "Archive"])];
  update_bayesian := update_bayesian builtin;
  evaluate_outcomes := evaluate_outcomes builtin;
  evaluate_testimony := evaluate_testimony builtin;
  gauge_consensus := gauge_consensus builtin;
  conclude_rationally := λ _, [("valid", VBool (s_rational_valid s))];
  accept_belief := accept_belief builtin;
  conclude_alignment := conclude_alignment builtin;
  accept_empirically := accept_empirically builtin;
  refine_hypothesis := refine_hypothesis builtin;
  deem_practical := deem_practical builtin;
  trust_authority := λ _, [("credible", VBool (s_credible s))];
  consider_consensus := consider_consensus builtin
|}.

(** The script that changes nothing but supplies the missing
    [frame_practical], as the identity on the statement. *)
Definition plain : Script :=
  {| s_clarity := λ _, 0.8%Q;
     s_frame := Some (λ s _, s);
     s_outdated := false;
     s_logic_valid := true;
     s_new_patterns := false;
     s_rational_valid := true;
     s_credible := true |}.

(** ** Reading the log *)

(** What the counts below look at in an entry: its step, and whether it is
    an opening message (a plain text) or carries a value after a prefix. *)
Inductive Line : Type :=
| Opening (step text : string)
| Detail (step prefix : string).

Definition line_of (e : LogEntry) : Line :=
  match le_output e with
  | Text s => Opening (le_step e) s
  | Fmt prefix _ => Detail (le_step e) prefix
  end.

Definition line_step (ln : Line) : string :=
  match ln with Opening s _ | Detail s _ => s end.

Fixpoint count_lines (P : Line → bool) (l : list Line) : nat :=
  match l with
  | [] => 0
  | ln :: l' => (if P ln then 1 else 0) + count_lines P l'
  end.

(** How many entries of the log belong to the step [name]. *)
Definition count_step (name : string) (l : list LogEntry) : nat :=
  count_lines (λ ln, bool_decide (line_step ln = name)) (line_of <$> l).

(** How many entries of the log are exactly the message [text] of the step
    [name]. *)
Definition count_message (name text : string) (l : list LogEntry) : nat :=
  count_lines
    (λ ln, match ln with
           | Opening s t => bool_decide (s = name) && bool_decide (t = text)
           | Detail _ _ => false
           end)
    (line_of <$> l).

(** How many entries of the log carry a value for the step [name]: for a
    check, the answer of its helper. *)
Definition count_detail (name : string) (l : list LogEntry) : nat :=
  count_lines
    (λ ln, match ln with
           | Opening _ _ => false
           | Detail s _ => bool_decide (s = name)
           end)
    (line_of <$> l).

(** Each call of [schedule_monitoring] leaves one entry under the step
    Monitoring, and nothing else writes under that name. *)
Definition monitoring_calls (l : list LogEntry) : nat :=
  count_step "Monitoring" l.

(** Each call of [gather_evidence] opens with this message, each call of
    [evaluate_proposition] with that one; the helpers cannot write to the
    log. *)
Definition gather_calls (l : list LogEntry) : nat :=
  count_message "Gut Tuning" "Simulating intuitive insights." l.

Definition evaluate_calls (l : list LogEntry) : nat :=
  count_message "Logic Cross-Check" "Validating with logic." l.

(** The steps of each stage, in the order of the source. *)
Definition definition_steps : list string :=
  ["Mind Quieting"; "Premises Identification"; "Hypothesis Formation";
   "Statement Identification"; "Belief Clarification"; "Claim Definition";
   "Proposition Articulation"; "Expert Identification"].

Definition gathering_steps : list string :=
  ["Gut Tuning"; "Phenomena Observation"; "Experience Recording";
   "Argument Building"; "Beliefs Listing"; "Facts Gathering";
   "Scenario Application"; "Experiment Conducting"; "Credentials Review";
   "Group Consultation"].

Definition evaluation_steps : list string :=
  ["Logic Cross-Check"; "Consistency Testing"; "Fit Checking";
   "Statement Comparison"; "Repeatability Verification"; "Data Analysis";
   "Outcomes Evaluation"; "Testimony Evaluation"; "Agreement Gauging"].

Definition conclusion_steps : list string :=
  ["Rational Conclusion"; "Belief Acceptance"; "Alignment Conclusion";
   "Empirical Acceptance"; "Hypothesis Refinement"; "Practical Deeming";
   "Authority Trusting"; "Consensus Consideration"].

(** The steps that come after [name] in a stage. *)
Fixpoint steps_after (name : string) (steps : list string) : list string :=
  match steps with
  | [] => []
  | s :: rest => if bool_decide (s = name) then rest else steps_after name rest
  end.

(** ** The gates of the stages *)

(** A gate is a place where a stage tests an answer and leaves when it is
    false: the step it belongs to, the message the step logs when it starts,
    the answer ([None] when the key is missing from the helper's dictionary)
    and the message of the error, or the reason of the early result. *)
Record Gate := {
  g_step : string;
  g_start : string;
  g_verdict : option bool;
  g_message : string
}.

Definition agrees (d : pydict) (key : string) : Prop := verdict d key = Some true.
Definition disagrees (d : pydict) (key : string) : Prop := verdict d key = Some false.

(** [g] is the first gate of the list whose answer is false, all gates before
    it having answered true. *)
Definition first_failing (gates : list Gate) (g : Gate) : Prop :=
  ∃ pre post, gates = pre ++ g :: post ∧
    Forall (λ h, g_verdict h = Some true) pre ∧ g_verdict g = Some false.

(** The text of line 48. *)
Definition hypothesis_text (i : InputData) : string :=
  default EmptyString (phenomenon i) +:+ " causes " +:+
  default "an outcome" (effect i) +:+ ".".

(** The seven raising checks of [define_proposition]; the last two lie
    behind the call of [frame_practical]. *)
Definition definition_gates (m : Methods) (i : InputData) : list Gate :=
  [ {| g_step := "Mind Quieting"; g_start := "Initializing focus state.";
       g_verdict := Some (truthy (context i));
       g_message := "Context required for focus." |};
    {| g_step := "Hypothesis Formation"; g_start := "Formulating hypothesis.";
       g_verdict :=
         Some (negb (bool_decide
                       (default EmptyString (phenomenon i) = EmptyString)));
       g_message := "Phenomenon required for hypothesis." |};
    {| g_step := "Hypothesis Formation"; g_start := "Formulating hypothesis.";
       g_verdict := Some (is_falsifiable m (hypothesis_text i));
       g_message := "Hypothesis must be falsifiable." |};
    {| g_step := "Statement Identification"; g_start := "Isolating key claim.";
       g_verdict := Some (context_match m (hypothesis_text i) (context i));
       g_message := "Statement does not match context." |};
    {| g_step := "Belief Clarification"; g_start := "Rephrasing for precision.";
       g_verdict :=
         Some (is_assessable m (clarify_statement m (hypothesis_text i)));
       g_message := "Statement not assessable." |} ] ++
  match frame_practical m with
  | None => []
  | Some frame =>
      [ {| g_step := "Claim Definition";
           g_start := "Framing for practical use.";
           g_verdict :=
             Some (is_actionable m
                     (frame (clarify_statement m (hypothesis_text i))
                        (use_case i)));
           g_message := "Claim not actionable." |};
        {| g_step := "Expert Identification";
           g_start := "Searching for experts.";
           g_verdict :=
             Some (truthy (dict_get "credentials" (find_expert m (domain i))));
           g_message := "No qualified expert found." |} ]
  end.

(** The eight raising checks of [evaluate_proposition].  The first seven
    helpers are consulted on the agent as it is at entry, [a0], and on the
    evidence handed in; step 3.6 is the last to change the agent, so the last
    two are consulted on the agent as the call leaves it, [a1]. *)
Definition evaluation_gates (m : Methods) (ev : list EvidenceRecord)
    (a0 a1 : Agent) : list Gate :=
  [ {| g_step := "Logic Cross-Check"; g_start := "Validating with logic.";
       g_verdict := verdict (cross_check_logic m (statement a0) ev) "valid";
       g_message := "Logic check failed." |};
    {| g_step := "Consistency Testing";
       g_start := "Testing for logical consistency.";
       g_verdict := verdict (test_consistency m (premises a0) ev) "consistent";
       g_message := "Inconsistent reasoning." |};
    {| g_step := "Fit Checking"; g_start := "Checking belief fit.";
       g_verdict :=
         verdict (check_fit m (statement a0) (evidence a0)) "coherent";
       g_message := "Belief fit failed." |};
    {| g_step := "Statement Comparison"; g_start := "Comparing to facts.";
       g_verdict := verdict (compare_facts m (statement a0) ev) "aligned";
       g_message := "Statement does not match facts." |};
    {| g_step := "Repeatability Verification";
       g_start := "Verifying repeatability.";
       g_verdict := verdict (verify_repeatability m ev) "reliable";
       g_message := "Data not repeatable." |};
    {| g_step := "Outcomes Evaluation";
       g_start := "Evaluating practical value.";
       g_verdict := verdict (evaluate_outcomes m (analyze_data m ev)) "useful";
       g_message := "Outcomes not practical." |};
    {| g_step := "Testimony Evaluation"; g_start := "Assessing expert input.";
       g_verdict := verdict (evaluate_testimony m (expert_data a1)) "relevant";
       g_message := "Expert testimony not relevant." |};
    {| g_step := "Agreement Gauging"; g_start := "Measuring group consensus.";
       g_verdict := verdict (gauge_consensus m (group_feedback a1)) "broad";
       g_message := "No broad consensus." |} ].

(** The two raising checks of [conclude_proposition]. *)
Definition conclusion_gates (m : Methods) (ev : Evaluation) (a : Agent)
  : list Gate :=
  [ {| g_step := "Rational Conclusion";
       g_start := "Checking logical validity.";
       g_verdict := verdict (conclude_rationally m ev) "valid";
       g_message := "Rational conclusion failed." |};
    {| g_step := "Belief Acceptance";
       g_start := "Checking belief integration.";
       g_verdict := verdict (accept_belief m (statement a) ev) "coherent";
       g_message := "Belief not integrated." |} ].

(** The five checks of [conclude_proposition] that answer with a negative
    result instead of raising. *)
Definition soft_gates (m : Methods) (ev : Evaluation) (a : Agent) : list Gate :=
  [ {| g_step := "Alignment Conclusion";
       g_start := "Verifying fact alignment.";
       g_verdict := verdict (conclude_alignment m (statement a) ev) "matched";
       g_message := "No fact alignment" |};
    {| g_step := "Empirical Acceptance";
       g_start := "Checking evidence support.";
       g_verdict := verdict (accept_empirically m ev) "supported";
       g_message := "No empirical support" |};
    {| g_step := "Practical Deeming"; g_start := "Checking practical value.";
       g_verdict := verdict (deem_practical m ev) "effective";
       g_message := "Not practical" |};
    {| g_step := "Authority Trusting";
       g_start := "Verifying expert credibility.";
       g_verdict := verdict (trust_authority m (expert_data a)) "credible";
       g_message := "Expert not credible" |};
    {| g_step := "Consensus Consideration";
       g_start := "Finalizing with consensus.";
       g_verdict := verdict (consider_consensus m ev) "agreed";
       g_message := "No consensus" |} ].

(** The run [run], started in [w], stopped in the step of [g]: the newest
    entry of the log is the opening message of that step, it is the only
    entry the run wrote under that step, so that no entry carries the answer
    of the helper, and no later step of the stage wrote anything. *)
Definition stopped_in {A} (steps : list string) (g : Gate) (w : World)
    (run : outcome A * World) : Prop :=
  (∃ t, head (logger run.2) =
        Some {| le_time := t; le_step := g_step g;
                le_output := Text (g_start g) |}) ∧
  count_step (g_step g) (logger run.2) = S (count_step (g_step g) (logger w)) ∧
  count_detail (g_step g) (logger run.2) = count_detail (g_step g) (logger w) ∧
  Forall (λ s, count_step s (logger run.2) = count_step s (logger w))
    (steps_after (g_step g) steps).



(** The text an exception carries. *)
Definition exn_text (e : exn) : string :=
  match e with ValueError s | AttributeError s | KeyError s => s end.

(** The world after [log_step step output]. *)
Definition logged (step : string) (output : Output) (w : World) : World :=
  {| agent := agent w;
     logger := {| le_time := clock w; le_step := step; le_output := output |}
               :: logger w;
     clock := S (clock w) |}.

(** The world as a call of [gather_evidence] leaves it.  The proofs about
    [evaluate_proposition] take the nested call as one step, so the world it
    yields is kept behind a sealed proof and known by [gathered_eq] only. *)
Definition gathered_sealed (m : Methods) (ctx : InputData) (w : World) :
  { w' : World | w' = (gather_evidence m ctx w).2 }.
Proof. exists (gather_evidence m ctx w).2. reflexivity. Qed.

Definition gathered (m : Methods) (ctx : InputData) (w : World) : World :=
  proj1_sig (gathered_sealed m ctx w).

(** The lines one call of [gather_evidence] adds to the log, newest first,
    and the sources of the records it adds to the ledger. *)
Definition gather_lines : list Line :=
  Eval vm_compute in
    line_of <$> logger (gather_evidence builtin main_input fresh).2.

Definition gathering_sources : list string :=
  ["intuition"; "observation"; "recorded"; "arguments"; "beliefs"; "facts";
   "scenario"; "experiment"; "expert"; "group"].

(** Scripts that depart from [plain] in one answer. *)
Definition vague_script : Script :=
  {| s_clarity := λ _, 0.5%Q;
     s_frame := s_frame plain;
     s_outdated := false;
     s_logic_valid := true;
     s_new_patterns := false;
     s_rational_valid := true;
     s_credible := true |}.

Definition mixed_script : Script :=
  {| s_clarity := λ p, if bool_decide (p = "Vague") then 0.5%Q else 0.8%Q;
     s_frame := s_frame plain;
     s_outdated := false;
     s_logic_valid := true;
     s_new_patterns := false;
     s_rational_valid := true;
     s_credible := true |}.

Definition stale_script : Script :=
  {| s_clarity := s_clarity plain;
     s_frame := s_frame plain;
     s_outdated := true;
     s_logic_valid := true;
     s_new_patterns := false;
     s_rational_valid := true;
     s_credible := true |}.

Definition logic_invalid_script : Script :=
  {| s_clarity := s_clarity plain;
     s_frame := s_frame plain;
     s_outdated := false;
     s_logic_valid := false;
     s_new_patterns := false;
     s_rational_valid := true;
     s_credible := true |}.

Definition new_patterns_script : Script :=
  {| s_clarity := s_clarity plain;
     s_frame := s_frame plain;
     s_outdated := false;
     s_logic_valid := true;
     s_new_patterns := true;
     s_rational_valid := true;
     s_credible := true |}.

Definition not_credible_script : Script :=
  {| s_clarity := s_clarity plain;
     s_frame := s_frame plain;
     s_outdated := false;
     s_logic_valid := true;
     s_new_patterns := false;
     s_rational_valid := true;
     s_credible := false |}.

(** The input of the [__main__] block with other premises. *)
Definition with_premises (ps : list string) : InputData :=
  {| context := context main_input;
     initial_premises := Some ps;
     phenomenon := phenomenon main_input;
     effect := effect main_input;
     use_case := use_case main_input;
     domain := domain main_input;
     initial_data := initial_data main_input;
     target := target main_input;
     data_sources := data_sources main_input;
     controls := controls main_input;
     time_sensitive := time_sensitive main_input;
     group := group main_input |}.

(** An evaluation result to conclude from. *)
Definition some_evaluation : Evaluation :=
  {| e_statement := "Employee recognition leads to increased productivity.";
     e_confidence := {[ "posterior" := 0.85%Q ]} |}.

(** A subclass of [m] whose [find_expert], [cross_check_logic] and
    [conclude_alignment] return fixed dictionaries, of any shape. *)
Definition answering (expert logic alignment : pydict) (m : Methods)
  : Methods := {|
  evaluate_clarity := evaluate_clarity m;
  is_falsifiable := is_falsifiable m;
  context_match := context_match m;
  clarify_statement := clarify_statement m;
  is_assessable := is_assessable m;
  frame_practical := frame_practical m;
  is_actionable := is_actionable m;
  prepare_for_group := prepare_for_group m;
  find_expert := λ _, expert;
  simulate_gut := simulate_gut m;
  observe_phenomena := observe_phenomena m;
  record_data := record_data m;
  build_arguments := build_arguments m;
  list_beliefs := list_beliefs m;
  gather_facts := gather_facts m;
  apply_scenario := apply_scenario m;
  conduct_experiment := conduct_experiment m;
  is_outdated := is_outdated m;
  refresh_data := refresh_data m;
  review_credentials := review_credentials m;
  consult_group := consult_group m;
  cross_check_logic := λ _ _, logic;
  test_consistency := test_consistency m;
  check_fit := check_fit m;
  compare_facts := compare_facts m;
  verify_repeatability := verify_repeatability m;
  analyze_data := analyze_data m;
  update_bayesian := update_bayesian m;
  evaluate_outcomes := evaluate_outcomes m;
  evaluate_testimony := evaluate_testimony m;
  gauge_consensus := gauge_consensus m;
  conclude_rationally := conclude_rationally m;
  accept_belief := accept_belief m;
  conclude_alignment := λ _ _, alignment;
  accept_empirically := accept_empirically m;
  refine_hypothesis := refine_hypothesis m;
  deem_practical := deem_practical m;
  trust_authority := trust_authority m;
  consider_consensus := consider_consensus m
|}.

(** The [__main__] block, lines 399 to 416, on a new agent: the four stages
    in a row, each fed the result of the one before; the last line prints
    the conclusion returned here. *)
Definition main (m : Methods) (input_data : InputData) : M Conclusion :=
  proposition <- define_proposition m input_data ;;
  evidence_ <- gather_evidence m input_data ;;
  evaluation <- evaluate_proposition m evidence_ ;;
  conclude_proposition m evaluation.

(** The prior given to each of a list of premises, in turn. *)
Definition with_priors (ps : list string) (scores : gmap string Q)
  : gmap string Q :=
  foldl (λ cs p, <[p := prior]> cs) scores ps.

(** Whether a call of [conclude_proposition] ended with the positive
    answer. *)
Definition is_truth (o : outcome Conclusion) : bool :=
  match o with
  | Returned c => truth c
  | Raised _ => false
  end.

(** The five raising checks of [evaluate_proposition] that come before the
    analysis of step 3.6. *)
Definition early_gates (m : Methods) (ev : list EvidenceRecord) (a : Agent)
  : list Gate :=
  take 5 (evaluation_gates m ev a a).

(** The agent after lines 34 to 40: the premises of the input put in
    place and the loop run over them. *)
Definition after_premises (m : Methods) (i : InputData) (a : Agent) : Agent :=
  identify_premises m (set_premises (default [] (initial_premises i)) a).

(** A minimal input: a context and a phenomenon, nothing else. *)
Definition bare_input (ctx : pyval) (phen : option string) : InputData :=
  {| context := ctx; initial_premises := None; phenomenon := phen;
     effect := None; use_case := VNone; domain := VNone;
     initial_data := None; target := VNone; data_sources := VNone;
     controls := VNone; time_sensitive := VNone; group := VNone |}.

(** The first entry each operation writes, at the time [t] of the call. *)
Definition opening (step message : string) (t : nat) : LogEntry :=
  {| le_time := t; le_step := step; le_output := Text message |}.

(** The class with the missing [frame_practical] supplied as [frame], the
    other helpers being the built-in ones. *)
Definition framed (frame : string → pyval → string) : Methods :=
  scripted
    {| s_clarity := s_clarity plain;
       s_frame := Some frame;
       s_outdated := s_outdated plain;
       s_logic_valid := s_logic_valid plain;
       s_new_patterns := s_new_patterns plain;
       s_rational_valid := s_rational_valid plain;
       s_credible := s_credible plain |}.

(** ** What the entries carry *)








(** * Properties *)

(** ** Strings *)

Lemma append_cons c s t : String c s +:+ t = String c (s +:+ t).
Proof. reflexivity. Qed.

Lemma append_empty t : EmptyString +:+ t = t.
Proof. reflexivity. Qed.

Lemma startswith_append sub t : startswith sub (sub +:+ t) = true.
Proof.
  induction sub as [|c sub IH]; [reflexivity|].
  rewrite append_cons. cbn [startswith].
  rewrite bool_decide_eq_true_2 by reflexivity. exact IH.
Qed.

Lemma py_in_cons sub c s : py_in sub s = true → py_in sub (String c s) = true.
Proof. intros H. cbn [py_in]. rewrite H. apply orb_true_r. Qed.

Lemma py_in_append_r sub s t : py_in sub t = true → py_in sub (s +:+ t) = true.
Proof.
  intros H. induction s as [|c s IH]; [exact H|].
  rewrite append_cons. apply py_in_cons, IH.
Qed.

Lemma py_in_prefix sub t : py_in sub (sub +:+ t) = true.
Proof.
  destruct sub as [|c sub].
  - destruct t; reflexivity.
  - rewrite append_cons. cbn [py_in]. rewrite <- append_cons.
    rewrite startswith_append. reflexivity.
Qed.

(** The text of line 48 always contains the word the falsifiability check
    looks for. *)
Lemma hypothesis_text_causes i : py_in "causes" (hypothesis_text i) = true.
Proof.
  unfold hypothesis_text. apply py_in_append_r.
  change (" causes " +:+ ?r) with (" " +:+ "causes" +:+ " " +:+ r).
  apply py_in_append_r, py_in_prefix.
Qed.

Lemma py_in_empty sub : sub ≠ EmptyString → py_in sub EmptyString = false.
Proof. destruct sub; [congruence|reflexivity]. Qed.

Lemma py_len_append s t : py_len (s +:+ t) = (py_len s + py_len t)%nat.
Proof.
  induction s as [|c s IH]; [reflexivity|].
  rewrite append_cons. cbn [py_len]. rewrite IH.
  destruct (continuation c); reflexivity.
Qed.

Lemma py_len_cons c s : (py_len (String c s) ≤ S (py_len s))%nat.
Proof. cbn [py_len]. destruct (continuation c); lia. Qed.

(** A replacement by a text with at least as many characters as the old one
    has bytes never shortens the string... *)
Lemma replace_from_length old new skip s :
  (1 ≤ String.length old ≤ py_len new)%nat →
  (py_len s ≤ py_len (replace_from old new skip s) + skip)%nat.
Proof.
  intros Hlen. revert skip.
  induction s as [|c s IH]; intros skip; cbn [replace_from].
  - cbn [py_len]. lia.
  - pose proof (py_len_cons c s) as Hc.
    destruct skip as [|k].
    + destruct (startswith old (String c s)).
      * rewrite py_len_append.
        specialize (IH (String.length old - 1)%nat). lia.
      * specialize (IH 0%nat). cbn [py_len].
        destruct (continuation c); lia.
    + specialize (IH k). lia.
Qed.

(** ... and lengthens it by the difference when the old text occurs. *)
Lemma py_replace_length old new s :
  (1 ≤ String.length old ≤ py_len new)%nat →
  py_in old s = true →
  (py_len s + (py_len new - String.length old)
   ≤ py_len (py_replace old new s))%nat.
Proof.
  intros Hlen. unfold py_replace.
  induction s as [|c s IH]; intros Hin.
  - rewrite py_in_empty in Hin; [discriminate|].
    intros ->. cbn in Hlen. lia.
  - cbn [py_in] in Hin. cbn [replace_from].
    pose proof (py_len_cons c s) as Hc.
    destruct (startswith old (String c s)).
    + rewrite py_len_append.
      pose proof (replace_from_length old new (String.length old - 1) s Hlen).
      lia.
    + cbn [orb] in Hin. specialize (IH Hin). cbn [py_len].
      destruct (continuation c); lia.
Qed.

(** The clarified statement has more than ten characters, as the built-in
    [is_assessable] asks: the words put in by lines 48 and 291 alone make
    eleven. *)
Lemma clarified_length i :
  default EmptyString (phenomenon i) ≠ EmptyString →
  (10 < py_len (py_replace "causes" "leads to" (hypothesis_text i)))%nat.
Proof.
  intros _.
  pose proof (py_replace_length "causes" "leads to" (hypothesis_text i)) as H.
  change (py_len "leads to") with 8%nat in H.
  change (String.length "causes") with 6%nat in H.
  specialize (H ltac:(lia) (hypothesis_text_causes i)).
  assert (9 ≤ py_len (hypothesis_text i))%nat; [|lia].
  unfold hypothesis_text. rewrite !py_len_append.
  change (py_len " causes ") with 8%nat.
  change (py_len ".") with 1%nat. lia.
Qed.

(** ** The premises loop *)

Lemma list_remove_length x l : (length (list_remove x l) ≤ length l)%nat.
Proof.
  induction l as [|y l IH]; cbn [list_remove length]; [lia|].
  destruct (bool_decide (y = x)); cbn [length]; lia.
Qed.

(** The loop is over once the index has left the list: more fuel than the
    length of the list changes nothing, so [identify_premises] runs the loop
    to its end. *)
Lemma premises_loop_fuel m fuel extra i a :
  (length (premises a) ≤ i + fuel)%nat →
  premises_loop m (fuel + extra) i a = premises_loop m fuel i a.
Proof.
  revert i a. induction fuel as [|fuel IH]; intros i a Hlen.
  - destruct extra as [|extra]; [reflexivity|].
    cbn [premises_loop Nat.add].
    rewrite (lookup_ge_None_2 (premises a) i) by lia. reflexivity.
  - cbn [premises_loop Nat.add].
    destruct (premises a !! i) as [p|]; [|reflexivity].
    destruct (clear_enough (evaluate_clarity m p)).
    + apply IH. cbn. lia.
    + apply IH. cbn. pose proof (list_remove_length p (premises a)). lia.
Qed.

(** ** Running a stage *)

Arguments verdict : simpl never.
Arguments count_step : simpl never.
Arguments count_message : simpl never.
Arguments count_detail : simpl never.
Arguments identify_premises : simpl never.

(** When the checker compares a stage with a run of it, it is to unfold the
    stage first and to compare the sequencing operator argument by argument,
    not to run both sides. *)
Strategy 100 [bind].

Section Steps.
Context {B : Type}.

Lemma bind_log_step step output (k : unit → M B) w :
  bind (log_step step output) k w = k tt (logged step output w).
Proof. reflexivity. Qed.

Lemma bind_self (k : Agent → M B) w : bind self k w = k (agent w) w.
Proof. reflexivity. Qed.

Lemma bind_update f (k : unit → M B) w :
  bind (update f) k w =
  k tt {| agent := f (agent w); logger := logger w; clock := clock w |}.
Proof. reflexivity. Qed.

Lemma bind_now (k : nat → M B) w :
  bind now k w =
  k (clock w) {| agent := agent w; logger := logger w; clock := S (clock w) |}.
Proof. reflexivity. Qed.

Lemma bind_ret {A} (x : A) (k : A → M B) w : bind (ret x) k w = k x w.
Proof. reflexivity. Qed.

Lemma bind_bind {A A'} (c : M A) (f : A → M A') (k : A' → M B) w :
  bind (bind c f) k w = bind c (λ x, bind (f x) k) w.
Proof. unfold bind. destruct (c w) as [[e|x] w']; reflexivity. Qed.

Lemma bind_require cond e (k : unit → M B) w :
  bind (require cond e) k w = if cond then k tt w else (Raised e, w).
Proof. destruct cond; reflexivity. Qed.

Lemma bind_check_agrees d key msg (k : unit → M B) w :
  verdict d key = Some true → bind (check d key msg) k w = k tt w.
Proof. intros H. unfold bind, check. rewrite H. reflexivity. Qed.

Lemma bind_check_disagrees d key msg (k : unit → M B) w :
  verdict d key = Some false →
  bind (check d key msg) k w = (Raised (ValueError msg), w).
Proof. intros H. unfold bind, check. rewrite H. reflexivity. Qed.

Lemma bind_check_missing d key msg (k : unit → M B) w :
  verdict d key = None →
  bind (check d key msg) k w = (Raised (KeyError key), w).
Proof. intros H. unfold bind, check. rewrite H. reflexivity. Qed.

Lemma bind_settle_agrees d key reason (k : option Conclusion → M B) w :
  verdict d key = Some true → bind (settle d key reason) k w = k None w.
Proof. intros H. unfold bind, settle. rewrite H. reflexivity. Qed.

Lemma bind_settle_disagrees d key reason (k : option Conclusion → M B) w :
  verdict d key = Some false →
  bind (settle d key reason) k w = k (Some (NoTruth reason)) w.
Proof. intros H. unfold bind, settle. rewrite H. reflexivity. Qed.

Lemma bind_settle_missing d key reason (k : option Conclusion → M B) w :
  verdict d key = None →
  bind (settle d key reason) k w = (Raised (KeyError key), w).
Proof. intros H. unfold bind, settle. rewrite H. reflexivity. Qed.

Lemma bind_subscript_found d key v (k : pyval → M B) w :
  dict_find key d = Some v → bind (subscript d key) k w = k v w.
Proof. intros H. unfold bind, subscript. rewrite H. reflexivity. Qed.

Lemma bind_subscript_missing d key (k : pyval → M B) w :
  dict_find key d = None →
  bind (subscript d key) k w = (Raised (KeyError key), w).
Proof. intros H. unfold bind, subscript. rewrite H. reflexivity. Qed.

End Steps.

Lemma dict_find_dict_set k v d : dict_find k (dict_set k v d) = Some v.
Proof.
  induction d as [|[k' v'] d IH]; cbn [dict_set dict_find].
  - rewrite bool_decide_eq_true_2 by reflexivity. reflexivity.
  - destruct (decide (k' = k)) as [->|Hne].
    + rewrite bool_decide_eq_true_2 by reflexivity. cbn [dict_find].
      rewrite bool_decide_eq_true_2 by reflexivity. reflexivity.
    + rewrite bool_decide_eq_false_2 by exact Hne. cbn [dict_find].
      rewrite bool_decide_eq_false_2 by exact Hne. exact IH.
Qed.

(** Drop a case whose answers contradict each other. *)
Ltac absurd_case :=
  try match goal with
      | H : Some _ = Some _ |- _ => discriminate H
      | H : None = Some _ |- _ => discriminate H
      | H : Some _ = None |- _ => discriminate H
      | H : true = false |- _ => discriminate H
      | H : false = true |- _ => discriminate H
      end.

(** Bring the state of the run recorded in [Hrun] to its normal form. *)
Ltac tidy_in Hrun :=
  cbv beta iota zeta in Hrun;
  cbn [agent logger clock logged premises hypothesis statement evidence
       expert_data group_feedback confidence_scores set_premises
       set_hypothesis set_statement set_evidence set_expert_data
       set_group_feedback set_confidence_scores] in Hrun.

(** Replace [Hrun : run = t] by [run = t'], given [E : t = t']. *)
Ltac advance Hrun E :=
  let H := fresh in
  pose proof (eq_trans Hrun E) as H; clear Hrun; rename H into Hrun.

(** One more step of the run recorded in [Hrun : run = ...]: at a check, by
    cases on the answer of the helper. *)
Ltac step_in Hrun :=
  lazymatch type of Hrun with
  | _ = bind (log_step ?s ?o) ?k ?w => advance Hrun (bind_log_step s o k w)
  | _ = bind schedule_monitoring ?k ?w =>
      advance Hrun
        (bind_log_step "Monitoring"
           (Text "Scheduled for future re-evaluation.") k w)
  | _ = bind self ?k ?w => advance Hrun (bind_self k w)
  | _ = bind (update ?f) ?k ?w => advance Hrun (bind_update f k w)
  | _ = bind now ?k ?w => advance Hrun (bind_now k w)
  | _ = bind (ret ?x) ?k ?w => advance Hrun (bind_ret x k w)
  | _ = bind (require ?b ?e) ?k ?w =>
      let E := fresh "E" in
      advance Hrun (bind_require b e k w);
      destruct b eqn:E; absurd_case
  | _ = bind (check ?d ?key ?msg) ?k ?w =>
      let E := fresh "E" in
      destruct (verdict d key) as [[|]|] eqn:E; absurd_case;
      first [ advance Hrun (bind_check_agrees d key msg k w E)
            | advance Hrun (bind_check_disagrees d key msg k w E)
            | advance Hrun (bind_check_missing d key msg k w E) ]
  | _ = bind (settle ?d ?key ?msg) ?k ?w =>
      let E := fresh "E" in
      destruct (verdict d key) as [[|]|] eqn:E; absurd_case;
      first [ advance Hrun (bind_settle_agrees d key msg k w E)
            | advance Hrun (bind_settle_disagrees d key msg k w E)
            | advance Hrun (bind_settle_missing d key msg k w E) ]
  | _ = bind (subscript (dict_set ?key ?v ?d) ?key) ?k ?w =>
      advance Hrun
        (bind_subscript_found _ key v k w (dict_find_dict_set key v d))
  | _ = bind (subscript ?d ?key) ?k ?w =>
      let E := fresh "E" in
      destruct (dict_find key d) as [?|] eqn:E;
      first [ advance Hrun (bind_subscript_found d key _ k w E)
            | advance Hrun (bind_subscript_missing d key k w E) ]
  | _ = bind (if truthy ?v then _ else _) ?k ?w =>
      let E := fresh "E" in
      destruct (truthy v) eqn:E
  | _ = bind (bind ?c ?f) ?k ?w => advance Hrun (bind_bind c f k w)
  | _ = ret ?x ?w => change (ret x w) with (Returned x, w) in Hrun
  | _ = raise ?e ?w =>
      change (raise e w) with (@Raised _ e, w) in Hrun
  end;
  tidy_in Hrun.

Ltac run_in Hrun := tidy_in Hrun; repeat step_in Hrun.

(** Close a goal that counts entries in a log that was computed: the names
    are literals, so the count computes. *)
Ltac count_log :=
  unfold monitoring_calls, gather_calls, evaluate_calls,
    count_step, count_message, count_detail;
  reflexivity.

Ltac after_step :=
  match goal with
  | |- context [steps_after ?n ?s] =>
      let l := eval vm_compute in (steps_after n s) in
      change (steps_after n s) with l
  end.

(** The conclusion of [stopped_in], for a run that was computed. *)
Ltac stopped :=
  unfold stopped_in; after_step; cbn;
  split; [eexists; reflexivity|];
  split; [count_log|];
  split; [count_log|];
  repeat (apply Forall_cons_2; [count_log|]); apply Forall_nil_2.

(** Name the gates before the failing one, and the failing one. *)
Ltac gates_in H :=
  let pre := fresh "pre" in
  let post := fresh "post" in
  let Heq := fresh "Heq" in
  let Hpre := fresh "Hpre" in
  let Hg := fresh "Hg" in
  destruct H as (pre & post & Heq & Hpre & Hg);
  repeat (destruct pre as [|? pre];
          [ | apply Forall_cons in Hpre as [? Hpre] ];
          match goal with
          | E : _ = _ ++ _ :: _ |- _ => cbn [app] in E
          end;
          simplify_eq);
  cbn [g_verdict g_message g_step g_start] in *.

(** ** The gathering stage *)

Lemma gathered_eq m ctx w : gathered m ctx w = (gather_evidence m ctx w).2.
Proof. exact (proj2_sig (gathered_sealed m ctx w)). Qed.

(** [gather_evidence] has no check that raises, and the one subscript it
    takes reads the key written just before: it always returns, and what it
    returns is the ledger of the agent. *)
Lemma gather_evidence_returns m ctx w :
  gather_evidence m ctx w =
  (Returned (evidence (agent (gathered m ctx w))), gathered m ctx w).
Proof.
  rewrite !gathered_eq.
  remember (gather_evidence m ctx w) as run eqn:Hrun.
  unfold gather_evidence, append_evidence in Hrun. run_in Hrun.
  subst run. reflexivity.
Qed.

Lemma gathered_lines m ctx w :
  line_of <$> logger (gathered m ctx w) = gather_lines ++ (line_of <$> logger w).
Proof.
  rewrite !gathered_eq.
  remember (gather_evidence m ctx w) as run eqn:Hrun.
  unfold gather_evidence, append_evidence in Hrun. run_in Hrun.
  subst run. reflexivity.
Qed.

(** The ledger grows by ten records, in the order of the steps, and the
    record of the experiment holds what [conduct_experiment] returned. *)
Lemma gathered_evidence m ctx w :
  source <$> evidence (agent (gathered m ctx w)) =
    (source <$> evidence (agent w)) ++ gathering_sources ∧
  evidence (agent (gathered m ctx w)) !! (length (evidence (agent w)) + 7)%nat =
    Some {| source := "experiment";
            data := conduct_experiment m (statement (agent w)) (controls ctx) |}.
Proof.
  rewrite !gathered_eq.
  remember (gather_evidence m ctx w) as run eqn:Hrun.
  unfold gather_evidence, append_evidence in Hrun. run_in Hrun.
  subst run. cbn. rewrite <- !app_assoc. cbn [app]. split.
  - rewrite fmap_app. reflexivity.
  - rewrite lookup_app_r by lia.
    replace (length (evidence (agent w)) + 7 - length (evidence (agent w)))%nat
      with 7%nat by lia.
    reflexivity.
Qed.

(** The fields [gather_evidence] does not touch. *)
Lemma gathered_agent m ctx w :
  premises (agent (gathered m ctx w)) = premises (agent w) ∧
  hypothesis (agent (gathered m ctx w)) = hypothesis (agent w) ∧
  statement (agent (gathered m ctx w)) = statement (agent w) ∧
  confidence_scores (agent (gathered m ctx w)) = confidence_scores (agent w).
Proof.
  rewrite !gathered_eq.
  remember (gather_evidence m ctx w) as run eqn:Hrun.
  unfold gather_evidence, append_evidence in Hrun. run_in Hrun.
  subst run. repeat split.
Qed.

Lemma gathered_logger m ctx w :
  ∃ new, logger (gathered m ctx w) = new ++ logger w ∧ length new = 20%nat.
Proof.
  rewrite !gathered_eq.
  remember (gather_evidence m ctx w) as run eqn:Hrun.
  unfold gather_evidence, append_evidence in Hrun. run_in Hrun.
  subst run. cbn [snd logger].
  match goal with
  | |- ∃ new, ?l = _ ∧ _ => exists (take 20 l)
  end.
  split; reflexivity.
Qed.

Lemma bind_gather {A B} m ctx (f : list EvidenceRecord → M A) (k : A → M B) w :
  bind (bind (gather_evidence m ctx) f) k w =
  bind (f (evidence (agent (gathered m ctx w)))) k (gathered m ctx w).
Proof. unfold bind. rewrite gather_evidence_returns. reflexivity. Qed.

Arguments gathered : simpl never.

(** ** The conclusion stage *)

Lemma conclude_stops m ev w g :
  first_failing (conclusion_gates m ev (agent w)) g →
  (conclude_proposition m ev w).1 = Raised (ValueError (g_message g)) ∧
  stopped_in conclusion_steps g w (conclude_proposition m ev w).
Proof.
  intros Hg. unfold first_failing, conclusion_gates in Hg.
  gates_in Hg.
  all: remember (conclude_proposition m ev w) as run eqn:Hrun.
  all: unfold conclude_proposition in Hrun; run_in Hrun.
  all: subst run; split; [reflexivity|stopped].
Qed.


(** C7.  When every check of [conclude_proposition] agrees, the call leaves
    the agent as it was, calls the monitoring scheduler exactly once and
    returns the positive answer with the agent's statement and confidence
    scores. *)
Theorem conclude_all_agree m ev w :
  Forall (λ h, g_verdict h = Some true)
    (conclusion_gates m ev (agent w) ++ soft_gates m ev (agent w)) →
  (conclude_proposition m ev w).1 =
    Returned (Truth (statement (agent w)) (confidence_scores (agent w))) ∧
  agent (conclude_proposition m ev w).2 = agent w ∧
  monitoring_calls (logger (conclude_proposition m ev w).2) =
    S (monitoring_calls (logger w)).
Proof.
  intros H. cbn [conclusion_gates soft_gates app] in H.
  repeat (apply Forall_cons in H as [? H]).
  cbn [g_verdict] in *.
  remember (conclude_proposition m ev w) as run eqn:Hrun.
  unfold conclude_proposition in Hrun; run_in Hrun.
  subst run. split; [reflexivity|]. split; [reflexivity|]. count_log.
Qed.

Lemma conclude_all_agree_witness :
  Forall (λ h, g_verdict h = Some true)
    (conclusion_gates builtin {| e_statement := "s"; e_confidence := ∅ |}
       (agent fresh) ++
     soft_gates builtin {| e_statement := "s"; e_confidence := ∅ |}
       (agent fresh)) ∧
  (conclude_proposition builtin
     {| e_statement := "s"; e_confidence := ∅ |} fresh).1 =
    Returned (Truth EmptyString ∅) ∧
  monitoring_calls
    (logger (conclude_proposition builtin
               {| e_statement := "s"; e_confidence := ∅ |} fresh).2) = 1%nat.
Proof.
  assert (Forall (λ h, g_verdict h = Some true)
            (conclusion_gates builtin
               {| e_statement := "s"; e_confidence := ∅ |} (agent fresh) ++
             soft_gates builtin
               {| e_statement := "s"; e_confidence := ∅ |} (agent fresh)))
    as H by (repeat constructor).
  split; [exact H|].
  destruct (conclude_all_agree builtin
              {| e_statement := "s"; e_confidence := ∅ |} fresh H)
    as (Hr & _ & Hm).
  split; [exact Hr | exact Hm].
Defined.

(** C6.  When the two raising checks pass and [g] is the first of the five
    answering checks to disagree, [conclude_proposition] returns the negative
    answer with the reason of [g]: it does not raise, the log ends with the
    opening message of the step of [g], no later step of the stage has
    written to it, and the monitoring scheduler was not called. *)
Theorem conclude_soft_failure m ev w g :
  Forall (λ h, g_verdict h = Some true) (conclusion_gates m ev (agent w)) →
  first_failing (soft_gates m ev (agent w)) g →
  (conclude_proposition m ev w).1 = Returned (NoTruth (g_message g)) ∧
  monitoring_calls (logger (conclude_proposition m ev w).2) =
    monitoring_calls (logger w) ∧
  stopped_in conclusion_steps g w (conclude_proposition m ev w).
Proof.
  intros H Hg. cbn [conclusion_gates] in H.
  repeat (apply Forall_cons in H as [? H]).
  unfold first_failing, soft_gates in Hg.
  gates_in Hg.
  all: remember (conclude_proposition m ev w) as run eqn:Hrun.
  all: unfold conclude_proposition in Hrun; run_in Hrun.
  all: subst run; split; [reflexivity|]; split; [count_log|stopped].
Qed.

(** ** The evaluation stage *)

(** As [step_in], with the nested call of [gather_evidence] taken in one
    step. *)
Ltac step_eval Hrun :=
  lazymatch type of Hrun with
  | _ = bind (bind (gather_evidence ?m ?ctx) ?f) ?k ?w =>
      advance Hrun (bind_gather m ctx f k w); tidy_in Hrun
  | _ => step_in Hrun
  end.

Ltac run_eval Hrun := tidy_in Hrun; repeat step_eval Hrun.

(** Bring the hypotheses about the finished run to the form of the answers
    met on the way, and drop the case when they contradict one. *)
Ltac settle_run run :=
  subst run;
  cbn [fst snd agent logger clock logged premises hypothesis statement
       evidence expert_data group_feedback confidence_scores set_premises
       set_hypothesis set_statement set_evidence set_expert_data
       set_group_feedback set_confidence_scores] in *;
  try match goal with
      | H1 : ?x = Some _, H2 : ?y = _ |- _ =>
          constr_eq x y;
          let Hc := fresh in
          pose proof (eq_trans (eq_sym H1) H2) as Hc;
          exfalso; discriminate Hc
      end.

(** Counting in a log that holds the entries of a nested call. *)
Ltac count_eval :=
  unfold monitoring_calls, gather_calls, evaluate_calls,
    count_step, count_message, count_detail;
  cbn [fmap list_fmap logger logged];
  rewrite ?gathered_lines;
  reflexivity.

Ltac stopped_eval :=
  unfold stopped_in; after_step;
  cbn [fst snd agent logger logged g_step g_start];
  split; [eexists; reflexivity|];
  split; [count_eval|];
  split; [count_eval|];
  repeat (apply Forall_cons_2; [count_eval|]); apply Forall_nil_2.

Lemma evaluate_stops m ev w g :
  first_failing
    (evaluation_gates m ev (agent w) (agent (evaluate_proposition m ev w).2))
    g →
  (evaluate_proposition m ev w).1 = Raised (ValueError (g_message g)) ∧
  stopped_in evaluation_steps g w (evaluate_proposition m ev w).
Proof.
  intros Hg. unfold first_failing, evaluation_gates in Hg.
  gates_in Hg.
  all: remember (evaluate_proposition m ev w) as run eqn:Hrun.
  all: unfold evaluate_proposition in Hrun; run_eval Hrun.
  all: settle_run run.
  all: (split; [reflexivity|stopped_eval]).
Qed.



Lemma at_most_one_same (n k : nat) : k = n → (n ≤ k ≤ S n)%nat.
Proof. lia. Qed.

Lemma at_most_one_more (n k : nat) : k = S n → (n ≤ k ≤ S n)%nat.
Proof. lia. Qed.

(** C5.  A call of [gather_evidence] opens exactly once and never opens
    [evaluate_proposition]; a call of [evaluate_proposition] opens itself
    exactly once and opens [gather_evidence] at most once, whatever the
    helpers answer: the nesting stops at depth one. *)
Theorem nested_gather_bounded :
  (∀ m ctx w,
     gather_calls (logger (gather_evidence m ctx w).2) =
       S (gather_calls (logger w)) ∧
     evaluate_calls (logger (gather_evidence m ctx w).2) =
       evaluate_calls (logger w)) ∧
  (∀ m ev w,
     (gather_calls (logger w)
        ≤ gather_calls (logger (evaluate_proposition m ev w).2)
        ≤ S (gather_calls (logger w)))%nat ∧
     evaluate_calls (logger (evaluate_proposition m ev w).2) =
       S (evaluate_calls (logger w))).
Proof.
  split.
  - intros m ctx w. rewrite <- gathered_eq. split; count_eval.
  - intros m ev w.
    remember (evaluate_proposition m ev w) as run eqn:Hrun.
    unfold evaluate_proposition in Hrun; run_eval Hrun.
    all: subst run; cbn [fst snd].
    all: split; [|count_eval].
    all: first [ apply at_most_one_same; count_eval
               | apply at_most_one_more; count_eval ].
Qed.

(** ** The definition stage *)

(** As [step_in], with the lookup of [frame_practical] settled by the
    hypothesis that tells whether the class has it. *)
Ltac step_def Hrun :=
  lazymatch type of Hrun with
  | _ = match frame_practical ?m with Some _ => _ | None => _ end ?w =>
      match goal with
      | F : frame_practical m = _ |- _ => rewrite F in Hrun
      end;
      tidy_in Hrun
  | _ => step_in Hrun
  end.

Ltac run_def Hrun := tidy_in Hrun; repeat step_def Hrun.

Lemma define_stops m i w g :
  first_failing (definition_gates m i) g →
  (define_proposition m i w).1 = Raised (ValueError (g_message g)) ∧
  stopped_in definition_steps g w (define_proposition m i w).
Proof.
  intros Hg. unfold first_failing, definition_gates, hypothesis_text in Hg.
  destruct (frame_practical m) as [frame|] eqn:F.
  all: gates_in Hg.
  all: remember (define_proposition m i w) as run eqn:Hrun.
  all: unfold define_proposition in Hrun; run_def Hrun.
  all: subst run; split; [reflexivity|stopped].
Qed.


(** When the class has no [frame_practical] and the five checks before the
    call pass, [define_proposition] raises the attribute error at step 1.6,
    after the opening message of that step and with the clarified statement
    in place. *)
Lemma define_without_frame m i w :
  frame_practical m = None →
  Forall (λ h, g_verdict h = Some true) (definition_gates m i) →
  (define_proposition m i w).1 = Raised (AttributeError "frame_practical") ∧
  (∃ t, head (logger (define_proposition m i w).2) =
        Some {| le_time := t; le_step := "Claim Definition";
                le_output := Text "Framing for practical use." |}) ∧
  hypothesis (agent (define_proposition m i w).2) = hypothesis_text i ∧
  statement (agent (define_proposition m i w).2) =
    clarify_statement m (hypothesis_text i).
Proof.
  intros F H. unfold definition_gates, hypothesis_text in *.
  rewrite F in H. cbn [app] in H.
  repeat (apply Forall_cons in H as [? H]).
  cbn [g_verdict] in *. simplify_eq.
  remember (define_proposition m i w) as run eqn:Hrun.
  unfold define_proposition in Hrun; run_def Hrun.
  subst run. repeat split. eexists; reflexivity.
Qed.

(** When the class has [frame_practical], the seven checks pass and the
    expert found has a name, [define_proposition] returns the framed
    statement and the premises the loop has left. *)
Lemma define_returns m frame i w name :
  frame_practical m = Some frame →
  Forall (λ h, g_verdict h = Some true) (definition_gates m i) →
  dict_find "name" (find_expert m (domain i)) = Some name →
  (define_proposition m i w).1 =
    Returned
      {| p_statement :=
           frame (clarify_statement m (hypothesis_text i)) (use_case i);
         p_premises :=
           premises (identify_premises m
                       (set_premises (default [] (initial_premises i))
                          (agent w))) |} ∧
  confidence_scores (agent (define_proposition m i w).2) =
    confidence_scores (identify_premises m
                         (set_premises (default [] (initial_premises i))
                            (agent w))).
Proof.
  intros F H Hname. unfold definition_gates, hypothesis_text in *.
  rewrite F in H. cbn [app] in H.
  repeat (apply Forall_cons in H as [? H]).
  cbn [g_verdict] in *. simplify_eq.
  remember (define_proposition m i w) as run eqn:Hrun.
  unfold define_proposition in Hrun; run_def Hrun.
  all: subst run; try discriminate.
  split; reflexivity.
Qed.

(** The built-in helpers pass the five checks before step 1.6 on every
    input with a context and a phenomenon. *)
Lemma builtin_gates_pass i :
  truthy (context i) = true →
  default EmptyString (phenomenon i) ≠ EmptyString →
  Forall (λ h, g_verdict h = Some true) (definition_gates builtin i).
Proof.
  intros Hc Hp.
  unfold definition_gates. cbn [frame_practical builtin app].
  repeat apply Forall_cons_2; try apply Forall_nil_2; cbn [g_verdict]; f_equal.
  - exact Hc.
  - rewrite bool_decide_eq_false_2 by exact Hp. reflexivity.
  - apply hypothesis_text_causes.
  - apply bool_decide_eq_true_2, clarified_length, Hp.
Qed.

(** C1.  The class defines no [frame_practical].  For every input with a
    context and a phenomenon, the built-in helpers pass the five checks
    before step 1.6 and [define_proposition] then raises the attribute error
    of the missing method, right after the opening message of that step: it
    never reaches the check of the framed statement and never returns. *)
Theorem define_builtin_raises i w :
  truthy (context i) = true →
  default EmptyString (phenomenon i) ≠ EmptyString →
  (define_proposition builtin i w).1 = Raised (AttributeError "frame_practical") ∧
  ∃ t, head (logger (define_proposition builtin i w).2) =
       Some {| le_time := t; le_step := "Claim Definition";
               le_output := Text "Framing for practical use." |}.
Proof.
  intros Hc Hp.
  destruct (define_without_frame builtin i w eq_refl
              (builtin_gates_pass i Hc Hp)) as (Hr & Hl & _).
  split; [exact Hr | exact Hl].
Qed.

Lemma define_builtin_raises_witness :
  truthy (context main_input) = true ∧
  default EmptyString (phenomenon main_input) ≠ EmptyString ∧
  (define_proposition builtin main_input fresh).1 =
    Raised (AttributeError "frame_practical").
Proof.
  split; [reflexivity|]. split; [discriminate|].
  apply (define_builtin_raises main_input fresh); [reflexivity|discriminate].
Defined.

(** C10.  With the built-in falsifiability check the text of line 48 always
    passes it, so [define_proposition] never raises the falsifiability error;
    and for an input with a context and a phenomenon the hypothesis left in
    the agent is that text. *)
Theorem falsifiability_never_fails m i w :
  (∀ h, is_falsifiable m h = is_falsifiable builtin h) →
  is_falsifiable m (hypothesis_text i) = true ∧
  (define_proposition m i w).1 ≠
    Raised (ValueError "Hypothesis must be falsifiable.") ∧
  (truthy (context i) = true →
   default EmptyString (phenomenon i) ≠ EmptyString →
   hypothesis (agent (define_proposition m i w).2) = hypothesis_text i).
Proof.
  intros Hf.
  assert (is_falsifiable m (hypothesis_text i) = true) as Hfal.
  { rewrite Hf. apply hypothesis_text_causes. }
  split; [exact Hfal|].
  unfold hypothesis_text in *.
  destruct (frame_practical m) as [frame|] eqn:F.
  all: remember (define_proposition m i w) as run eqn:Hrun.
  all: unfold define_proposition in Hrun; run_def Hrun.
  all: subst run; cbn [fst snd agent hypothesis].
  all: split; [intros Hx; discriminate Hx|].
  all: intros Hc Hp; try reflexivity; try congruence.
  all: match goal with
       | E : negb (bool_decide _) = false |- _ =>
           apply negb_false_iff, bool_decide_eq_true in E; contradiction
       end.
Qed.

Lemma falsifiability_never_fails_witness :
  (∀ h, is_falsifiable builtin h = is_falsifiable builtin h) ∧
  is_falsifiable builtin (hypothesis_text main_input) = true ∧
  (define_proposition builtin main_input fresh).1 ≠
    Raised (ValueError "Hypothesis must be falsifiable.") ∧
  hypothesis (agent (define_proposition builtin main_input fresh).2) =
    "Employee recognition causes increased productivity.".
Proof.
  split; [reflexivity|].
  destruct (falsifiability_never_fails builtin main_input fresh
              (λ h, eq_refl)) as (H1 & H2 & H3).
  split; [exact H1|]. split; [exact H2|].
  apply H3; [reflexivity|discriminate].
Defined.

(** ** The premises filter on scripted clarity scores *)

(** C2.  The loop of lines 35 to 40 removes from the list it walks.  With
    a supplied [frame_practical], so that [define_proposition] completes:
    of two premises that both score 0.5 the second stays in the returned
    list; and a premise that scores 0.8 but follows a removed one stays in
    the list without ever receiving its prior. *)
Theorem premises_filter_skips :
  clear_enough (s_clarity vague_script "Unclear two") = false ∧
  (define_proposition (scripted vague_script)
     (with_premises ["Unclear one"; "Unclear two"]) fresh).1 =
    Returned
      {| p_statement := "Employee recognition leads to increased productivity.";
         p_premises := ["Unclear two"] |} ∧
  clear_enough (s_clarity mixed_script "Recognition motivates") = true ∧
  (define_proposition (scripted mixed_script)
     (with_premises ["Vague"; "Recognition motivates"]) fresh).1 =
    Returned
      {| p_statement := "Employee recognition leads to increased productivity.";
         p_premises := ["Recognition motivates"] |} ∧
  confidence_scores
    (agent (define_proposition (scripted mixed_script)
              (with_premises ["Vague"; "Recognition motivates"]) fresh).2)
    !! "Recognition motivates" = None.
Proof. repeat split; vm_compute; reflexivity. Qed.

(** ** The freshness check of the experiment *)

(** C3.  With an [is_outdated] that reports stale data, the record of the
    experiment in the ledger still holds what [conduct_experiment] returned:
    the record is appended before the check, and the refreshed data reaches
    the log only. *)
Theorem stale_experiment_is_kept :
  is_outdated (scripted stale_script)
    (conduct_experiment (scripted stale_script) EmptyString (controls main_input))
    (time_sensitive main_input) = true ∧
  evidence (agent (gather_evidence (scripted stale_script) main_input fresh).2)
    !! 7%nat =
    Some {| source := "experiment";
            data := VDict [("data", VStr "Experiment results")] |} ∧
  refresh_data (scripted stale_script) (data_sources main_input) =
    VDict [("data", VStr "Updated results")] ∧
  Forall (λ r, data r ≠ VDict [("data", VStr "Updated results")])
    (evidence (agent (gather_evidence (scripted stale_script) main_input
                        fresh).2)) ∧
  Exists (λ e, le_output e =
               Fmt "Experiment data: " (VDict [("data", VStr "Updated results")]))
    (logger (gather_evidence (scripted stale_script) main_input fresh).2).
Proof.
  split; [reflexivity|]. split; [vm_compute; reflexivity|].
  split; [reflexivity|]. split.
  - vm_compute. repeat (apply Forall_cons_2; [discriminate|]).
    apply Forall_nil_2.
  - vm_compute. do 4 apply Exists_cons_tl. apply Exists_cons_hd. reflexivity.
Qed.

(** ** No order among the stages *)

(** C9.  The agent keeps no record of the stage it is in.  On a fresh agent
    and with the built-in helpers, [conclude_proposition] returns the
    positive answer with the empty statement and no scores,
    [gather_evidence] returns ten records, [evaluate_proposition] returns
    the empty statement with the posterior, and [define_proposition] ends in
    one of the three ways it ends in after any history: none of them fails
    for want of an earlier stage. *)
Theorem no_stage_order :
  (∀ ev, (conclude_proposition builtin ev fresh).1 =
         Returned (Truth EmptyString ∅)) ∧
  (∀ ctx, ∃ l, (gather_evidence builtin ctx fresh).1 = Returned l ∧
               length l = 10%nat) ∧
  (∀ ev, (evaluate_proposition builtin ev fresh).1 =
         Returned {| e_statement := EmptyString;
                     e_confidence := {[ "posterior" := 0.85%Q ]} |}) ∧
  (∀ i, (define_proposition builtin i fresh).1 =
          Raised (ValueError "Context required for focus.") ∨
        (define_proposition builtin i fresh).1 =
          Raised (ValueError "Phenomenon required for hypothesis.") ∨
        (define_proposition builtin i fresh).1 =
          Raised (AttributeError "frame_practical")).
Proof.
  split; [|split; [|split]].
  - intros ev. vm_compute. reflexivity.
  - intros ctx. eexists. split; vm_compute; reflexivity.
  - intros ev. vm_compute. reflexivity.
  - intros i.
    destruct (truthy (context i)) eqn:Hc.
    + destruct (decide (default EmptyString (phenomenon i) = EmptyString))
        as [Hp|Hp].
      * right. left.
        apply (define_stops builtin i fresh
                 {| g_step := "Hypothesis Formation";
                    g_start := "Formulating hypothesis.";
                    g_verdict :=
                      Some (negb (bool_decide
                                    (default EmptyString (phenomenon i)
                                     = EmptyString)));
                    g_message := "Phenomenon required for hypothesis." |}).
        eexists [_], _. split; [reflexivity|]. cbn [g_verdict]. split.
        -- apply Forall_cons_2; [|apply Forall_nil_2]. cbn. by rewrite Hc.
        -- by rewrite bool_decide_eq_true_2.
      * right. right.
        apply (define_without_frame builtin i fresh eq_refl
                 (builtin_gates_pass i Hc Hp)).
    + left.
      apply (define_stops builtin i fresh
               {| g_step := "Mind Quieting";
                  g_start := "Initializing focus state.";
                  g_verdict := Some (truthy (context i));
                  g_message := "Context required for focus." |}).
      eexists [], _. split; [reflexivity|]. cbn [g_verdict]. split.
      * apply Forall_nil_2.
      * by rewrite Hc.
Qed.

(** ** Raising checks *)

(** The conclusion of C6 on the script of the spec's second scenario: the
    expert is not credible. *)
Lemma conclude_soft_failure_witness :
  Forall (λ h, g_verdict h = Some true)
    (conclusion_gates (scripted not_credible_script) some_evaluation
       (agent fresh)) ∧
  (conclude_proposition (scripted not_credible_script) some_evaluation
     fresh).1 = Returned (NoTruth "Expert not credible") ∧
  monitoring_calls
    (logger (conclude_proposition (scripted not_credible_script)
               some_evaluation fresh).2) = 0%nat.
Proof.
  assert (Forall (λ h, g_verdict h = Some true)
            (conclusion_gates (scripted not_credible_script) some_evaluation
               (agent fresh))) as H by (repeat constructor).
  split; [exact H|].
  destruct (conclude_soft_failure (scripted not_credible_script)
              some_evaluation fresh
              {| g_step := "Authority Trusting";
                 g_start := "Verifying expert credibility.";
                 g_verdict := Some false;
                 g_message := "Expert not credible" |} H)
    as (Hr & Hm & _).
  - eexists [_; _; _], [_]. split; [reflexivity|].
    split; [repeat constructor|reflexivity].
  - split; [exact Hr|exact Hm].
Defined.

(** The claim C8 as stated fails on the name: when the logic cross-check
    is the failing gate, the error raised is the one of its message, a text
    that does not contain the name of the step. *)
Lemma failure_carries_no_step_name :
  ∃ g e,
    first_failing
      (evaluation_gates (scripted logic_invalid_script) [] (agent fresh)
         (agent (evaluate_proposition (scripted logic_invalid_script) []
                   fresh).2)) g ∧
    g_step g = "Logic Cross-Check" ∧
    (evaluate_proposition (scripted logic_invalid_script) [] fresh).1 =
      Raised e ∧
    exn_text e = "Logic check failed." ∧
    py_in (g_step g) (exn_text e) = false.
Proof.
  eexists _, _. split.
  - eexists [], _. split; [reflexivity|].
    split; [apply Forall_nil_2|reflexivity].
  - repeat split; vm_compute; reflexivity.
Qed.

(** C8, amended.  In each stage that has raising checks, the first one
    whose helper answers false ends the stage there: the call raises a
    [ValueError] with the message of that check, the log ends with the
    opening message of its step and no later step of the stage has written
    to it.  [gather_evidence] has no raising check and always returns. *)
Theorem failing_check_aborts :
  (∀ m i w g,
     first_failing (definition_gates m i) g →
     (define_proposition m i w).1 = Raised (ValueError (g_message g)) ∧
     stopped_in definition_steps g w (define_proposition m i w)) ∧
  (∀ m ev w g,
     first_failing
       (evaluation_gates m ev (agent w) (agent (evaluate_proposition m ev w).2))
       g →
     (evaluate_proposition m ev w).1 = Raised (ValueError (g_message g)) ∧
     stopped_in evaluation_steps g w (evaluate_proposition m ev w)) ∧
  (∀ m ev w g,
     first_failing (conclusion_gates m ev (agent w)) g →
     (conclude_proposition m ev w).1 = Raised (ValueError (g_message g)) ∧
     stopped_in conclusion_steps g w (conclude_proposition m ev w)) ∧
  (∀ m ctx w, ∃ l, (gather_evidence m ctx w).1 = Returned l).
Proof.
  split; [|split; [|split]].
  - intros. by apply define_stops.
  - intros. by apply evaluate_stops.
  - intros. by apply conclude_stops.
  - intros m ctx w. rewrite gather_evidence_returns. eexists. reflexivity.
Qed.

Lemma failing_check_aborts_witness :
  first_failing
    (evaluation_gates (scripted logic_invalid_script) [] (agent fresh)
       (agent (evaluate_proposition (scripted logic_invalid_script) []
                 fresh).2))
    {| g_step := "Logic Cross-Check"; g_start := "Validating with logic.";
       g_verdict := Some false; g_message := "Logic check failed." |} ∧
  (evaluate_proposition (scripted logic_invalid_script) [] fresh).1 =
    Raised (ValueError "Logic check failed.").
Proof.
  assert (first_failing
            (evaluation_gates (scripted logic_invalid_script) [] (agent fresh)
               (agent (evaluate_proposition (scripted logic_invalid_script) []
                         fresh).2))
            {| g_step := "Logic Cross-Check";
               g_start := "Validating with logic.";
               g_verdict := Some false;
               g_message := "Logic check failed." |}) as H.
  { eexists [], _. split; [reflexivity|].
    split; [apply Forall_nil_2|reflexivity]. }
  split; [exact H|].
  exact (proj1 (proj1 (proj2 failing_check_aborts) _ _ _ _ H)).
Defined.

(** ** What a check leaves in the log *)


(** *** The entries of a run and what they carry *)
















(** * Further properties of the code *)

(** ** [gather_evidence] *)

Lemma gathered_expert m ctx w :
  expert_data (agent (gathered m ctx w)) =
    dict_set "reliability" (review_credentials m (expert_data (agent w)))
      (expert_data (agent w)) ∧
  group_feedback (agent (gathered m ctx w)) =
    consult_group m (statement (agent w)) (group ctx).
Proof.
  rewrite !gathered_eq.
  remember (gather_evidence m ctx w) as run eqn:Hrun.
  unfold gather_evidence, append_evidence in Hrun. run_in Hrun.
  subst run. split; reflexivity.
Qed.

Lemma gathered_clock m ctx w : clock (gathered m ctx w) = (21 + clock w)%nat.
Proof.
  rewrite !gathered_eq.
  remember (gather_evidence m ctx w) as run eqn:Hrun.
  unfold gather_evidence, append_evidence in Hrun. run_in Hrun.
  subst run. reflexivity.
Qed.

Lemma dict_find_dict_set_ne k k' v d :
  k' ≠ k → dict_find k' (dict_set k v d) = dict_find k' d.
Proof.
  intros Hne.
  induction d as [|[k0 v0] d IH]; cbn [dict_set dict_find].
  - rewrite bool_decide_eq_false_2 by congruence. reflexivity.
  - destruct (decide (k0 = k)) as [->|Hk].
    + rewrite bool_decide_eq_true_2 by reflexivity. cbn [dict_find].
      rewrite !bool_decide_eq_false_2 by congruence. reflexivity.
    + rewrite (bool_decide_eq_false_2 (k0 = k)) by exact Hk.
      cbn [dict_find]. rewrite IH. reflexivity.
Qed.



(** X3.  The record of the experiment is what [conduct_experiment] returned
    on the statement of the agent and the controls of the context, whatever
    [is_outdated] answers and [refresh_data] returns. *)
Theorem experiment_record_is_unrefreshed m ctx w :
  evidence (agent (gather_evidence m ctx w).2)
    !! (length (evidence (agent w)) + 7)%nat =
  Some {| source := "experiment";
          data := conduct_experiment m (statement (agent w)) (controls ctx) |}.
Proof. rewrite <- gathered_eq. apply gathered_evidence. Qed.

(** X4.  [gather_evidence] writes the reliability that [review_credentials]
    gives for the expert data at entry under the key reliability of the
    expert data, overwriting an older one, and replaces the group feedback
    by the answer of [consult_group]. *)
Theorem gather_reviews_expert m ctx w :
  dict_find "reliability" (expert_data (agent (gather_evidence m ctx w).2)) =
    Some (review_credentials m (expert_data (agent w))) ∧
  (∀ key, key ≠ "reliability" →
     dict_find key (expert_data (agent (gather_evidence m ctx w).2)) =
     dict_find key (expert_data (agent w))) ∧
  group_feedback (agent (gather_evidence m ctx w).2) =
    consult_group m (statement (agent w)) (group ctx).
Proof.
  rewrite <- gathered_eq.
  destruct (gathered_expert m ctx w) as [-> ->].
  split; [apply dict_find_dict_set|]. split; [|reflexivity].
  intros key Hkey. by apply dict_find_dict_set_ne.
Qed.

(** X5.  [gather_evidence] leaves the premises, the hypothesis, the
    statement and the confidence scores of the agent as they were. *)
Theorem gather_keeps_the_proposition m ctx w :
  premises (agent (gather_evidence m ctx w).2) = premises (agent w) ∧
  hypothesis (agent (gather_evidence m ctx w).2) = hypothesis (agent w) ∧
  statement (agent (gather_evidence m ctx w).2) = statement (agent w) ∧
  confidence_scores (agent (gather_evidence m ctx w).2) =
    confidence_scores (agent w).
Proof. rewrite <- gathered_eq. apply gathered_agent. Qed.

(** X6.  One call of [gather_evidence] adds twenty entries on top of the
    log, two under each of its ten steps, and reads the clock once more than
    that, for the timestamp of the recorded data. *)
Theorem gather_log_and_clock m ctx w :
  (∃ new, logger (gather_evidence m ctx w).2 = new ++ logger w ∧
          length new = 20%nat) ∧
  Forall (λ s, count_step s (logger (gather_evidence m ctx w).2) =
               S (S (count_step s (logger w)))) gathering_steps ∧
  clock (gather_evidence m ctx w).2 = (21 + clock w)%nat.
Proof.
  rewrite <- gathered_eq.
  split; [apply gathered_logger|]. split; [|apply gathered_clock].
  unfold gathering_steps.
  repeat (apply Forall_cons_2; [count_eval|]); apply Forall_nil_2.
Qed.

(** ** [conclude_proposition] *)

(** X7.  [conclude_proposition] only reads the agent: whatever the helpers
    answer and however the call ends, the agent is as it was at entry. *)
Theorem conclude_keeps_agent m ev w :
  agent (conclude_proposition m ev w).2 = agent w.
Proof.
  remember (conclude_proposition m ev w) as run eqn:Hrun.
  unfold conclude_proposition in Hrun; run_in Hrun.
  all: subst run; reflexivity.
Qed.

(** X8.  The monitoring scheduler is called once when the call ends with
    the positive answer and not at all otherwise, be it a negative answer or
    an exception. *)
Theorem monitoring_only_on_truth m ev w :
  monitoring_calls (logger (conclude_proposition m ev w).2) =
  ((if is_truth (conclude_proposition m ev w).1 then 1 else 0)
   + monitoring_calls (logger w))%nat.
Proof.
  remember (conclude_proposition m ev w) as run eqn:Hrun.
  unfold conclude_proposition in Hrun; run_in Hrun.
  all: subst run; cbn [fst snd is_truth truth]; count_log.
Qed.

(** X9.  An answering check does raise when the dictionary of its helper
    lacks the key it reads: with the two raising checks passed and no key
    matched in the answer of [conclude_alignment], the call ends with the
    key error of that key instead of a negative answer. *)
Theorem alignment_without_key_raises m ev w :
  Forall (λ h, g_verdict h = Some true) (conclusion_gates m ev (agent w)) →
  dict_find "matched" (conclude_alignment m (statement (agent w)) ev) = None →
  (conclude_proposition m ev w).1 = Raised (KeyError "matched").
Proof.
  intros H Hkey. cbn [conclusion_gates] in H.
  repeat (apply Forall_cons in H as [? H]). cbn [g_verdict] in *.
  assert (verdict (conclude_alignment m (statement (agent w)) ev) "matched"
          = None) as Hv by (unfold verdict; rewrite Hkey; reflexivity).
  remember (conclude_proposition m ev w) as run eqn:Hrun.
  unfold conclude_proposition in Hrun; run_in Hrun.
  subst run. reflexivity.
Qed.

Lemma alignment_without_key_raises_witness :
  dict_find "matched"
    (conclude_alignment (answering [] [] [] builtin)
       (statement (agent fresh)) some_evaluation) = None ∧
  (conclude_proposition (answering [] [] [] builtin) some_evaluation fresh).1
    = Raised (KeyError "matched").
Proof.
  split; [reflexivity|].
  apply alignment_without_key_raises; [repeat constructor|reflexivity].
Defined.

(** ** [evaluate_proposition] *)

Lemma gathered_scores m ctx w :
  confidence_scores (agent (gathered m ctx w)) = confidence_scores (agent w).
Proof. apply gathered_agent. Qed.

Lemma gathered_statement m ctx w :
  statement (agent (gathered m ctx w)) = statement (agent w).
Proof. apply gathered_agent. Qed.

Lemma gathered_premises m ctx w :
  premises (agent (gathered m ctx w)) = premises (agent w).
Proof. apply gathered_agent. Qed.

Lemma gathered_hypothesis m ctx w :
  hypothesis (agent (gathered m ctx w)) = hypothesis (agent w).
Proof. apply gathered_agent. Qed.

(** Split the hypothesis that the five early checks pass. *)
Ltac early_pass H :=
  unfold early_gates, evaluation_gates in H; cbn [take] in H;
  repeat (apply Forall_cons in H as [? H]);
  cbn [g_verdict] in *.

(** Normal form of the agent of a finished run of [evaluate_proposition]. *)
Ltac evaluated :=
  cbn [fst snd agent logger clock logged premises hypothesis statement
       evidence expert_data group_feedback confidence_scores set_premises
       set_hypothesis set_statement set_evidence set_expert_data
       set_group_feedback set_confidence_scores];
  rewrite ?gathered_scores, ?gathered_statement, ?gathered_premises,
    ?gathered_hypothesis;
  cbn [fst snd agent logger clock logged premises hypothesis statement
       evidence expert_data group_feedback confidence_scores set_premises
       set_hypothesis set_statement set_evidence set_expert_data
       set_group_feedback set_confidence_scores].

(** X10.  Once the five early checks have passed, the posterior that
    [update_bayesian] gives for the analysis is in the confidence scores of
    the agent when the call ends, also when a later check makes it raise. *)
Theorem posterior_is_written m ev w :
  Forall (λ h, g_verdict h = Some true) (early_gates m ev (agent w)) →
  confidence_scores (agent (evaluate_proposition m ev w).2) !! "posterior" =
    Some (update_bayesian m (analyze_data m ev)).
Proof.
  intros H. early_pass H.
  remember (evaluate_proposition m ev w) as run eqn:Hrun.
  unfold evaluate_proposition in Hrun; run_eval Hrun.
  all: subst run; evaluated; apply lookup_insert_eq.
Qed.

Lemma posterior_is_written_witness :
  Forall (λ h, g_verdict h = Some true)
    (early_gates (scripted not_credible_script) [] (agent fresh)) ∧
  confidence_scores
    (agent (evaluate_proposition (scripted not_credible_script) [] fresh).2)
    !! "posterior" = Some 0.85%Q.
Proof.
  assert (Forall (λ h, g_verdict h = Some true)
            (early_gates (scripted not_credible_script) [] (agent fresh)))
    as H by (repeat constructor).
  split; [exact H|].
  exact (posterior_is_written (scripted not_credible_script) [] fresh H).
Defined.

(** What [evaluate_proposition] has returned, and the agent it leaves. *)
Lemma evaluate_returned m ev w x :
  (evaluate_proposition m ev w).1 = Returned x →
  x = {| e_statement := statement (agent w);
         e_confidence :=
           <["posterior" := update_bayesian m (analyze_data m ev)]>
             (confidence_scores (agent w)) |} ∧
  statement (agent (evaluate_proposition m ev w).2) = statement (agent w) ∧
  premises (agent (evaluate_proposition m ev w).2) = premises (agent w) ∧
  hypothesis (agent (evaluate_proposition m ev w).2) = hypothesis (agent w) ∧
  confidence_scores (agent (evaluate_proposition m ev w).2) = e_confidence x.
Proof.
  remember (evaluate_proposition m ev w) as run eqn:Hrun.
  unfold evaluate_proposition in Hrun; run_eval Hrun.
  all: subst run; cbn [fst snd]; intros Hx; try discriminate Hx.
  all: injection Hx as <-; evaluated; cbn [e_confidence];
    repeat split; reflexivity.
Qed.

(** X11.  When [evaluate_proposition] returns, it returns the statement of
    the agent, which it has not changed, and the confidence scores at entry
    with the posterior written over them; premises and hypothesis are as
    they were. *)
Theorem evaluate_returns_statement_and_scores m ev w x :
  (evaluate_proposition m ev w).1 = Returned x →
  x = {| e_statement := statement (agent w);
         e_confidence :=
           <["posterior" := update_bayesian m (analyze_data m ev)]>
             (confidence_scores (agent w)) |} ∧
  statement (agent (evaluate_proposition m ev w).2) = statement (agent w) ∧
  premises (agent (evaluate_proposition m ev w).2) = premises (agent w) ∧
  hypothesis (agent (evaluate_proposition m ev w).2) = hypothesis (agent w).
Proof.
  intros Hx.
  destruct (evaluate_returned m ev w x Hx) as (H1 & H2 & H3 & H4 & _).
  repeat split; assumption.
Qed.

Lemma evaluate_returns_statement_and_scores_witness :
  (evaluate_proposition builtin [] fresh).1 =
    Returned {| e_statement := EmptyString;
                e_confidence := {[ "posterior" := 0.85%Q ]} |} ∧
  {| e_statement := EmptyString;
     e_confidence := {[ "posterior" := 0.85%Q ]} |} =
  {| e_statement := statement (agent fresh);
     e_confidence :=
       <["posterior" := update_bayesian builtin (analyze_data builtin [])]>
         (confidence_scores (agent fresh)) |}.
Proof.
  assert ((evaluate_proposition builtin [] fresh).1 =
          Returned {| e_statement := EmptyString;
                      e_confidence := {[ "posterior" := 0.85%Q ]} |}) as Hx
    by (vm_compute; reflexivity).
  split; [exact Hx|].
  exact (proj1 (evaluate_returns_statement_and_scores builtin [] fresh _ Hx)).
Defined.

(** X12.  When one of the five early checks is the first to fail, the call
    leaves the agent exactly as it was: nothing is written before step
    3.6. *)
Theorem early_failure_keeps_agent m ev w g :
  first_failing (early_gates m ev (agent w)) g →
  (evaluate_proposition m ev w).1 = Raised (ValueError (g_message g)) ∧
  agent (evaluate_proposition m ev w).2 = agent w.
Proof.
  intros Hg. unfold first_failing, early_gates, evaluation_gates in Hg.
  cbn [take] in Hg. gates_in Hg.
  all: remember (evaluate_proposition m ev w) as run eqn:Hrun.
  all: unfold evaluate_proposition in Hrun; run_eval Hrun.
  all: subst run; split; reflexivity.
Qed.

Lemma early_failure_keeps_agent_witness :
  first_failing (early_gates (scripted logic_invalid_script) [] (agent fresh))
    {| g_step := "Logic Cross-Check"; g_start := "Validating with logic.";
       g_verdict := Some false; g_message := "Logic check failed." |} ∧
  agent (evaluate_proposition (scripted logic_invalid_script) [] fresh).2 =
    agent fresh.
Proof.
  assert (first_failing
            (early_gates (scripted logic_invalid_script) [] (agent fresh))
            {| g_step := "Logic Cross-Check";
               g_start := "Validating with logic.";
               g_verdict := Some false;
               g_message := "Logic check failed." |}) as H.
  { eexists [], _. split; [reflexivity|].
    split; [apply Forall_nil_2|reflexivity]. }
  split; [exact H|].
  exact (proj2 (early_failure_keeps_agent _ _ _ _ H)).
Defined.



(** X14.  A raising check whose helper answers with a dictionary that
    lacks the key read raises the key error of that key: for the logic
    cross-check, the first step, with the agent left as it was. *)
Theorem logic_without_key_raises m ev w :
  dict_find "valid" (cross_check_logic m (statement (agent w)) ev) = None →
  (evaluate_proposition m ev w).1 = Raised (KeyError "valid") ∧
  agent (evaluate_proposition m ev w).2 = agent w.
Proof.
  intros Hkey.
  assert (verdict (cross_check_logic m (statement (agent w)) ev) "valid"
          = None) as Hv by (unfold verdict; rewrite Hkey; reflexivity).
  remember (evaluate_proposition m ev w) as run eqn:Hrun.
  unfold evaluate_proposition in Hrun; tidy_in Hrun.
  do 3 step_eval Hrun.
  subst run. split; reflexivity.
Qed.

Lemma logic_without_key_raises_witness :
  dict_find "valid"
    (cross_check_logic (answering [] [] [] builtin)
       (statement (agent fresh)) []) = None ∧
  (evaluate_proposition (answering [] [] [] builtin) [] fresh).1 =
    Raised (KeyError "valid").
Proof.
  split; [reflexivity|].
  apply (logic_without_key_raises (answering [] [] [] builtin) [] fresh).
  reflexivity.
Defined.

(** ** [define_proposition] *)

Lemma list_remove_sublist x l : list_remove x l `sublist_of` l.
Proof.
  induction l as [|y l IH]; cbn [list_remove]; [constructor|].
  destruct (bool_decide (y = x)).
  - apply sublist_cons. reflexivity.
  - apply sublist_skip, IH.
Qed.

Lemma with_priors_cons p ps scores :
  with_priors (p :: ps) scores = with_priors ps (<[p := prior]> scores).
Proof. reflexivity. Qed.

(** When every premise is clear the loop removes nothing and visits every
    index in turn. *)
Lemma premises_loop_all_clear m fuel i a :
  Forall (λ p, clear_enough (evaluate_clarity m p) = true) (premises a) →
  (length (premises a) ≤ i + fuel)%nat →
  premises (premises_loop m fuel i a) = premises a ∧
  confidence_scores (premises_loop m fuel i a) =
    with_priors (drop i (premises a)) (confidence_scores a).
Proof.
  intros Hall. revert i a Hall.
  induction fuel as [|fuel IH]; intros i a Hall Hlen; cbn [premises_loop].
  - rewrite drop_ge by lia. split; reflexivity.
  - destruct (premises a !! i) as [p|] eqn:Hp.
    + rewrite (proj1 (Forall_lookup _ _) Hall i p Hp).
      rewrite (drop_S _ _ _ Hp), with_priors_cons.
      pose proof (IH (S i)
                    (set_confidence_scores
                       (<[p:=prior]> (confidence_scores a)) a)) as H.
      cbn [premises confidence_scores set_confidence_scores] in H.
      apply H; [exact Hall | lia].
    + rewrite drop_ge by (apply lookup_ge_None; exact Hp).
      split; reflexivity.
Qed.

(** What the loop keeps whatever the clarity scores are: the premises left
    are taken from those at entry, in their order; a score is one at entry or
    the prior of a clear premise; the other fields are not touched. *)
Lemma premises_loop_invariant m fuel i a :
  premises (premises_loop m fuel i a) `sublist_of` premises a ∧
  (∀ p q, confidence_scores (premises_loop m fuel i a) !! p = Some q →
          confidence_scores a !! p = Some q ∨
          (q = prior ∧ p ∈ premises a ∧
           clear_enough (evaluate_clarity m p) = true)) ∧
  hypothesis (premises_loop m fuel i a) = hypothesis a ∧
  statement (premises_loop m fuel i a) = statement a ∧
  evidence (premises_loop m fuel i a) = evidence a ∧
  expert_data (premises_loop m fuel i a) = expert_data a ∧
  group_feedback (premises_loop m fuel i a) = group_feedback a.
Proof.
  revert i a.
  induction fuel as [|fuel IH]; intros i a; cbn [premises_loop].
  - split; [reflexivity|]. split; [intros p q H; left; exact H|].
    repeat split.
  - destruct (premises a !! i) as [p|] eqn:Hp.
    + destruct (clear_enough (evaluate_clarity m p)) eqn:Hclear.
      * destruct (IH (S i) (set_confidence_scores
                              (<[p:=prior]> (confidence_scores a)) a))
          as (Hsub & Hsc & Hrest).
        split; [exact Hsub|]. split; [|exact Hrest].
        intros p' q Hq. destruct (Hsc p' q Hq) as [Hold|Hnew].
        -- cbn [confidence_scores set_confidence_scores] in Hold.
           apply lookup_insert_Some in Hold as [[<- <-]|[_ Hold]].
           ++ right. split; [reflexivity|].
              split; [exact (list_elem_of_lookup_2 _ _ _ Hp)|exact Hclear].
           ++ left. exact Hold.
        -- right. exact Hnew.
      * destruct (IH (S i) (set_premises (list_remove p (premises a)) a))
          as (Hsub & Hsc & Hrest).
        cbn [premises set_premises] in Hsub.
        split; [etrans; [exact Hsub|apply list_remove_sublist]|].
        split; [|exact Hrest].
        intros p' q Hq. destruct (Hsc p' q Hq) as [Hold|(Hprior & Hin & Hc)].
        -- left. exact Hold.
        -- right. split; [exact Hprior|]. split; [|exact Hc].
           cbn [premises set_premises] in Hin.
           exact (elem_of_sublist _ _ _ Hin (list_remove_sublist p _)).
    + split; [reflexivity|]. split; [intros p q H; left; exact H|].
      repeat split.
Qed.

(** Once the context check has passed, the premises and the scores of the
    agent are those the loop has left, however the call ends. *)
Lemma define_premises m i w :
  truthy (context i) = true →
  premises (agent (define_proposition m i w).2) =
    premises (after_premises m i (agent w)) ∧
  confidence_scores (agent (define_proposition m i w).2) =
    confidence_scores (after_premises m i (agent w)).
Proof.
  intros Hc. unfold after_premises.
  destruct (frame_practical m) as [frame|] eqn:F.
  all: remember (define_proposition m i w) as run eqn:Hrun.
  all: unfold define_proposition in Hrun; run_def Hrun.
  all: subst run; try congruence.
  all: split; reflexivity.
Qed.

(** X15.  Given a context, when every initial premise is clear the agent
    keeps the whole list, in its order, and its scores are those at entry
    with the prior written for each premise in turn, however the call
    ends. *)
Theorem clear_premises_are_kept m i w :
  truthy (context i) = true →
  Forall (λ p, clear_enough (evaluate_clarity m p) = true)
    (default [] (initial_premises i)) →
  premises (agent (define_proposition m i w).2) =
    default [] (initial_premises i) ∧
  confidence_scores (agent (define_proposition m i w).2) =
    with_priors (default [] (initial_premises i))
      (confidence_scores (agent w)).
Proof.
  intros Hc Hall.
  destruct (define_premises m i w Hc) as [-> ->].
  unfold after_premises, identify_premises.
  apply (premises_loop_all_clear m _ 0
           (set_premises (default [] (initial_premises i)) (agent w)));
    [exact Hall | cbn; lia].
Qed.

Lemma clear_premises_are_kept_witness :
  truthy (context main_input) = true ∧
  premises (agent (define_proposition builtin main_input fresh).2) =
    ["Recognition motivates"; "Effort impacts output"] ∧
  confidence_scores (agent (define_proposition builtin main_input fresh).2) =
    with_priors ["Recognition motivates"; "Effort impacts output"] ∅.
Proof.
  split; [reflexivity|].
  apply (clear_premises_are_kept builtin main_input fresh); [reflexivity|].
  repeat constructor.
Defined.

(** X16.  Given a context, whatever the clarity scores are and however the
    call ends, the premises left in the agent are taken from the initial
    premises, in their order, and every confidence score is one the agent
    had at entry or the prior of an initial premise that is clear. *)
Theorem premises_come_from_the_input m i w :
  truthy (context i) = true →
  premises (agent (define_proposition m i w).2)
    `sublist_of` default [] (initial_premises i) ∧
  ∀ p q,
    confidence_scores (agent (define_proposition m i w).2) !! p = Some q →
    confidence_scores (agent w) !! p = Some q ∨
    (q = prior ∧ p ∈ default [] (initial_premises i) ∧
     clear_enough (evaluate_clarity m p) = true).
Proof.
  intros Hc.
  destruct (define_premises m i w Hc) as [-> ->].
  unfold after_premises, identify_premises.
  destruct (premises_loop_invariant m
              (length (premises (set_premises (default [] (initial_premises i))
                                   (agent w))))
              0 (set_premises (default [] (initial_premises i)) (agent w)))
    as (Hsub & Hsc & _).
  split; [exact Hsub | exact Hsc].
Qed.

Lemma premises_come_from_the_input_witness :
  truthy (context (with_premises ["Vague"; "Recognition motivates"])) = true ∧
  premises
    (agent (define_proposition (scripted mixed_script)
              (with_premises ["Vague"; "Recognition motivates"]) fresh).2)
    `sublist_of` ["Vague"; "Recognition motivates"].
Proof.
  split; [reflexivity|].
  exact (proj1 (premises_come_from_the_input (scripted mixed_script)
                  (with_premises ["Vague"; "Recognition motivates"]) fresh
                  eq_refl)).
Defined.

(** X17.  Without a context the call raises at once: the log has the
    opening message of step 1.1 as its one new entry and the agent is as it
    was, its premises not yet replaced. *)
Theorem no_context_changes_nothing m i w :
  truthy (context i) = false →
  (define_proposition m i w).1 =
    Raised (ValueError "Context required for focus.") ∧
  agent (define_proposition m i w).2 = agent w ∧
  logger (define_proposition m i w).2 =
    {| le_time := clock w; le_step := "Mind Quieting";
       le_output := Text "Initializing focus state." |} :: logger w.
Proof.
  intros Hc.
  remember (define_proposition m i w) as run eqn:Hrun.
  unfold define_proposition in Hrun; tidy_in Hrun.
  do 2 step_in Hrun.
  subst run. repeat split.
Qed.

Lemma no_context_changes_nothing_witness :
  truthy (context (bare_input (VStr EmptyString) (Some "Rain"))) = false ∧
  (define_proposition builtin
     (bare_input (VStr EmptyString) (Some "Rain")) fresh).1 =
    Raised (ValueError "Context required for focus.").
Proof.
  split; [reflexivity|].
  apply (no_context_changes_nothing builtin
           (bare_input (VStr EmptyString) (Some "Rain")) fresh).
  reflexivity.
Defined.

(** X18.  With a context but no phenomenon the call raises at step 1.3,
    and by then it has replaced the premises of the agent by what the loop
    left of the input's, and written their priors; hypothesis and statement
    are as they were. *)
Theorem no_phenomenon_keeps_new_premises m i w :
  truthy (context i) = true →
  default EmptyString (phenomenon i) = EmptyString →
  (define_proposition m i w).1 =
    Raised (ValueError "Phenomenon required for hypothesis.") ∧
  premises (agent (define_proposition m i w).2) =
    premises (after_premises m i (agent w)) ∧
  confidence_scores (agent (define_proposition m i w).2) =
    confidence_scores (after_premises m i (agent w)) ∧
  hypothesis (agent (define_proposition m i w).2) = hypothesis (agent w) ∧
  statement (agent (define_proposition m i w).2) = statement (agent w).
Proof.
  intros Hc Hp. unfold after_premises.
  destruct (premises_loop_invariant m
              (length (premises (set_premises (default [] (initial_premises i))
                                   (agent w))))
              0 (set_premises (default [] (initial_premises i)) (agent w)))
    as (_ & _ & Hhyp & Hst & _).
  assert (negb (bool_decide
                  (default EmptyString (phenomenon i) = EmptyString)) = false)
    as Hb by (rewrite bool_decide_eq_true_2 by exact Hp; reflexivity).
  remember (define_proposition m i w) as run eqn:Hrun.
  unfold define_proposition in Hrun; tidy_in Hrun.
  repeat step_in Hrun.
  subst run. split; [reflexivity|]. split; [reflexivity|].
  split; [reflexivity|]. split; [exact Hhyp | exact Hst].
Qed.

Lemma no_phenomenon_keeps_new_premises_witness :
  truthy (context (bare_input (VStr "Weather") None)) = true ∧
  default EmptyString (phenomenon (bare_input (VStr "Weather") None)) =
    EmptyString ∧
  (define_proposition builtin (bare_input (VStr "Weather") None) fresh).1 =
    Raised (ValueError "Phenomenon required for hypothesis.").
Proof.
  split; [reflexivity|]. split; [reflexivity|].
  apply (no_phenomenon_keeps_new_premises builtin
           (bare_input (VStr "Weather") None) fresh); reflexivity.
Defined.

(** X19.  With [frame_practical] in place and the seven checks passed, an
    expert dictionary that has credentials but no name makes the last line
    of step 1.8 raise the key error of the name; by then the agent holds the
    framed statement and that dictionary. *)
Theorem nameless_expert_raises m frame i w :
  frame_practical m = Some frame →
  Forall (λ h, g_verdict h = Some true) (definition_gates m i) →
  dict_find "name" (find_expert m (domain i)) = None →
  (define_proposition m i w).1 = Raised (KeyError "name") ∧
  statement (agent (define_proposition m i w).2) =
    frame (clarify_statement m (hypothesis_text i)) (use_case i) ∧
  expert_data (agent (define_proposition m i w).2) =
    find_expert m (domain i).
Proof.
  intros F H Hname. unfold definition_gates, hypothesis_text in *.
  rewrite F in H. cbn [app] in H.
  repeat (apply Forall_cons in H as [? H]).
  cbn [g_verdict] in *. simplify_eq.
  remember (define_proposition m i w) as run eqn:Hrun.
  unfold define_proposition in Hrun; run_def Hrun.
  all: subst run; try discriminate.
  repeat split.
Qed.

Lemma nameless_expert_raises_witness :
  dict_find "name"
    (find_expert
       (answering [("credentials", VStr "PhD")] [] [] (scripted plain))
       (domain main_input)) = None ∧
  (define_proposition
     (answering [("credentials", VStr "PhD")] [] [] (scripted plain))
     main_input fresh).1 = Raised (KeyError "name").
Proof.
  split; [reflexivity|].
  apply (nameless_expert_raises
           (answering [("credentials", VStr "PhD")] [] [] (scripted plain))
           (λ s _, s) main_input fresh eq_refl);
    [vm_compute; repeat constructor | reflexivity].
Defined.

(** X20.  What [define_proposition] returns is what it has stored: the
    statement and the premises of the result are those of the agent when
    the call ends, the statement being the framing of the clarified text of
    line 48; the agent also holds that text as its hypothesis and the
    dictionary of the expert found. *)
Theorem define_returns_what_it_stored m i w x :
  (define_proposition m i w).1 = Returned x →
  p_statement x = statement (agent (define_proposition m i w).2) ∧
  p_premises x = premises (agent (define_proposition m i w).2) ∧
  hypothesis (agent (define_proposition m i w).2) = hypothesis_text i ∧
  expert_data (agent (define_proposition m i w).2) =
    find_expert m (domain i) ∧
  ∃ frame, frame_practical m = Some frame ∧
           p_statement x =
             frame (clarify_statement m (hypothesis_text i)) (use_case i).
Proof.
  unfold hypothesis_text.
  destruct (frame_practical m) as [frame|] eqn:F.
  all: remember (define_proposition m i w) as run eqn:Hrun.
  all: unfold define_proposition in Hrun; run_def Hrun.
  all: subst run; cbn [fst snd]; intros Hx; try discriminate Hx.
  injection Hx as <-. cbn [p_statement p_premises agent statement premises
                          hypothesis expert_data].
  repeat split. exists frame. split; reflexivity.
Qed.

Lemma define_returns_what_it_stored_witness :
  (define_proposition (scripted plain) main_input fresh).1 =
    Returned
      {| p_statement := "Employee recognition leads to increased productivity.";
         p_premises := ["Recognition motivates"; "Effort impacts output"] |} ∧
  premises (agent (define_proposition (scripted plain) main_input fresh).2) =
    ["Recognition motivates"; "Effort impacts output"].
Proof.
  assert ((define_proposition (scripted plain) main_input fresh).1 =
          Returned
            {| p_statement :=
                 "Employee recognition leads to increased productivity.";
               p_premises :=
                 ["Recognition motivates"; "Effort impacts output"] |}) as Hx
    by (vm_compute; reflexivity).
  split; [exact Hx|].
  symmetry.
  exact (proj1 (proj2 (define_returns_what_it_stored _ _ _ _ Hx))).
Defined.

(** ** The built-in helpers *)

Lemma py_in_replace old new s :
  old ≠ EmptyString →
  py_in old s = true → py_in new (py_replace old new s) = true.
Proof.
  intros Hold. unfold py_replace.
  induction s as [|c s IH]; intros Hin.
  - rewrite py_in_empty in Hin by exact Hold. discriminate Hin.
  - cbn [replace_from]. cbn [py_in] in Hin.
    destruct (startswith old (String c s)) eqn:Hs.
    + apply py_in_prefix.
    + cbn [orb] in Hin. apply py_in_cons, IH, Hin.
Qed.

Lemma py_replace_absent old new s :
  py_in old s = false → py_replace old new s = s.
Proof.
  unfold py_replace.
  induction s as [|c s IH]; intros Hin; [reflexivity|].
  cbn [replace_from]. cbn [py_in] in Hin.
  apply orb_false_iff in Hin as [-> Hin].
  rewrite (IH Hin). reflexivity.
Qed.

(** X21.  The built-in helpers fit together: a hypothesis that passes the
    built-in falsifiability check is, once clarified by the built-in
    [clarify_statement], accepted by the built-in [is_actionable]. *)
Theorem falsifiable_becomes_actionable h :
  is_falsifiable builtin h = true →
  is_actionable builtin (clarify_statement builtin h) = true.
Proof.
  cbn [is_falsifiable is_actionable clarify_statement builtin].
  apply py_in_replace. discriminate.
Qed.

Lemma falsifiable_becomes_actionable_witness :
  is_falsifiable builtin "Rain causes floods." = true ∧
  is_actionable builtin (clarify_statement builtin "Rain causes floods.")
    = true.
Proof.
  split; [reflexivity|].
  apply (falsifiable_becomes_actionable "Rain causes floods."). reflexivity.
Defined.

(** X22.  The built-in [clarify_statement] leaves a text as it is when the
    built-in falsifiability check rejects it: there is no occurrence to
    replace. *)
Theorem clarify_keeps_unfalsifiable h :
  is_falsifiable builtin h = false →
  clarify_statement builtin h = h.
Proof.
  cbn [is_falsifiable clarify_statement builtin].
  apply py_replace_absent.
Qed.

Lemma clarify_keeps_unfalsifiable_witness :
  is_falsifiable builtin "Rain comes and goes" = false ∧
  clarify_statement builtin "Rain comes and goes" = "Rain comes and goes".
Proof.
  split; [reflexivity|].
  apply (clarify_keeps_unfalsifiable "Rain comes and goes"). reflexivity.
Defined.

(** ** The log *)

(** The old log lies under the new entries. *)
Ltac under_new :=
  repeat first
    [ reflexivity
    | apply suffix_cons_r
    | match goal with
      | |- _ `suffix_of` logger (gathered ?m ?ctx ?w) =>
          let new := fresh "new" in
          let E := fresh "E" in
          destruct (gathered_logger m ctx w) as (new & E & _);
          rewrite E; clear E; apply suffix_app_r; cbn [logger]
      end ].

(** X23.  The log is only ever added to.  Each of the four operations
    starts by writing the opening message of its first step, stamped with
    the time of the call, on top of the log it finds, and whatever it does
    afterwards and however it ends, these entries stay below the later
    ones. *)
Theorem log_is_append_only m w :
  (∀ i, (opening "Mind Quieting" "Initializing focus state." (clock w)
         :: logger w) `suffix_of` logger (define_proposition m i w).2) ∧
  (∀ ctx, (opening "Gut Tuning" "Simulating intuitive insights." (clock w)
           :: logger w) `suffix_of` logger (gather_evidence m ctx w).2) ∧
  (∀ ev, (opening "Logic Cross-Check" "Validating with logic." (clock w)
          :: logger w) `suffix_of` logger (evaluate_proposition m ev w).2) ∧
  (∀ ev, (opening "Rational Conclusion" "Checking logical validity." (clock w)
          :: logger w) `suffix_of` logger (conclude_proposition m ev w).2).
Proof.
  unfold opening. split; [|split; [|split]].
  - intros i. destruct (frame_practical m) as [frame|] eqn:F.
    all: remember (define_proposition m i w) as run eqn:Hrun.
    all: unfold define_proposition in Hrun; run_def Hrun.
    all: subst run; cbn [snd logger]; under_new.
  - intros ctx.
    remember (gather_evidence m ctx w) as run eqn:Hrun.
    unfold gather_evidence, append_evidence in Hrun. run_in Hrun.
    subst run; cbn [snd logger]; under_new.
  - intros ev.
    remember (evaluate_proposition m ev w) as run eqn:Hrun.
    unfold evaluate_proposition in Hrun; run_eval Hrun.
    all: subst run; cbn [snd logger]; under_new.
  - intros ev.
    remember (conclude_proposition m ev w) as run eqn:Hrun.
    unfold conclude_proposition in Hrun; run_in Hrun.
    all: subst run; cbn [snd logger]; under_new.
Qed.

(** ** The stages in a row *)

Lemma evaluate_agrees m ev w :
  Forall (λ h, g_verdict h = Some true)
    (evaluation_gates m ev (agent w)
       (agent (evaluate_proposition m ev w).2)) →
  (evaluate_proposition m ev w).1 =
    Returned {| e_statement := statement (agent w);
                e_confidence :=
                  <["posterior" := update_bayesian m (analyze_data m ev)]>
                    (confidence_scores (agent w)) |}.
Proof.
  intros H. unfold evaluation_gates in H.
  repeat (apply Forall_cons in H as [? H]). cbn [g_verdict] in *.
  remember (evaluate_proposition m ev w) as run eqn:Hrun.
  unfold evaluate_proposition in Hrun; run_eval Hrun.
  all: settle_run run.
  all: evaluated; reflexivity.
Qed.

Lemma conclude_agrees m ev w :
  Forall (λ h, g_verdict h = Some true)
    (conclusion_gates m ev (agent w) ++ soft_gates m ev (agent w)) →
  (conclude_proposition m ev w).1 =
    Returned (Truth (statement (agent w)) (confidence_scores (agent w))).
Proof.
  intros H. cbn [conclusion_gates soft_gates app] in H.
  repeat (apply Forall_cons in H as [? H]).
  cbn [g_verdict] in *.
  remember (conclude_proposition m ev w) as run eqn:Hrun.
  unfold conclude_proposition in Hrun; run_in Hrun.
  subst run. reflexivity.
Qed.

(** X24.  When all eight checks of [evaluate_proposition] agree, the call
    returns the statement of the agent with the confidence scores at entry
    and the posterior written over them. *)
Theorem evaluate_all_agree m ev w :
  Forall (λ h, g_verdict h = Some true)
    (evaluation_gates m ev (agent w)
       (agent (evaluate_proposition m ev w).2)) →
  (evaluate_proposition m ev w).1 =
    Returned {| e_statement := statement (agent w);
                e_confidence :=
                  <["posterior" := update_bayesian m (analyze_data m ev)]>
                    (confidence_scores (agent w)) |}.
Proof. apply evaluate_agrees. Qed.

Lemma evaluate_all_agree_witness :
  Forall (λ h, g_verdict h = Some true)
    (evaluation_gates (scripted new_patterns_script) [] (agent fresh)
       (agent (evaluate_proposition (scripted new_patterns_script) []
                 fresh).2)) ∧
  (evaluate_proposition (scripted new_patterns_script) [] fresh).1 =
    Returned {| e_statement := EmptyString;
                e_confidence := {[ "posterior" := 0.85%Q ]} |}.
Proof.
  assert (Forall (λ h, g_verdict h = Some true)
            (evaluation_gates (scripted new_patterns_script) [] (agent fresh)
               (agent (evaluate_proposition (scripted new_patterns_script) []
                         fresh).2))) as H
    by (repeat constructor).
  split; [exact H|].
  exact (evaluate_all_agree (scripted new_patterns_script) [] fresh H).
Defined.

(** The script of [__main__], stage by stage. *)
Lemma main_eq m i w :
  main m i w =
  match define_proposition m i w with
  | (Returned _, w1) =>
      match evaluate_proposition m (evidence (agent (gathered m i w1)))
              (gathered m i w1) with
      | (Returned e, w3) => conclude_proposition m e w3
      | (Raised x, w3) => (Raised x, w3)
      end
  | (Raised x, w1) => (Raised x, w1)
  end.
Proof.
  unfold main, bind.
  destruct (define_proposition m i w) as [[x|p] w1]; [reflexivity|].
  rewrite gather_evidence_returns. reflexivity.
Qed.

(** [define_proposition] leaves the ledger and the group feedback alone and
    writes under its own steps only. *)
Lemma define_keeps_ledger m i w :
  evidence (agent (define_proposition m i w).2) = evidence (agent w) ∧
  group_feedback (agent (define_proposition m i w).2) =
    group_feedback (agent w) ∧
  Forall (λ s, count_step s (logger (define_proposition m i w).2) =
               count_step s (logger w))
    (gathering_steps ++ evaluation_steps ++ conclusion_steps ++ ["Monitoring"]).
Proof.
  destruct (premises_loop_invariant m
              (length (premises (set_premises (default [] (initial_premises i))
                                   (agent w))))
              0 (set_premises (default [] (initial_premises i)) (agent w)))
    as (_ & _ & _ & _ & Hev & _ & Hgf).
  destruct (frame_practical m) as [frame|] eqn:F.
  all: remember (define_proposition m i w) as run eqn:Hrun.
  all: unfold define_proposition in Hrun; run_def Hrun.
  all: subst run; cbn [snd agent logger evidence group_feedback].
  all: split; [first [reflexivity|exact Hev]|].
  all: split; [first [reflexivity|exact Hgf]|].
  all: unfold gathering_steps, evaluation_steps, conclusion_steps;
    cbn [app];
    repeat (apply Forall_cons_2; [count_log|]); apply Forall_nil_2.
Qed.

(** X25.  [define_proposition] stays within its stage: however it ends, the
    ledger and the group feedback of the agent are as they were, and no
    entry was logged under a step of the other three operations or of the
    monitoring scheduler. *)
Theorem define_stays_in_its_stage m i w :
  evidence (agent (define_proposition m i w).2) = evidence (agent w) ∧
  group_feedback (agent (define_proposition m i w).2) =
    group_feedback (agent w) ∧
  Forall (λ s, count_step s (logger (define_proposition m i w).2) =
               count_step s (logger w))
    (gathering_steps ++ evaluation_steps ++ conclusion_steps ++ ["Monitoring"]).
Proof. apply define_keeps_ledger. Qed.

(** X26.  The script of [__main__], with the built-in helpers and on any
    input with a context and a phenomenon, ends in the first stage with the
    attribute error of the missing method: nothing is gathered, and no step
    of a later stage is logged. *)
Theorem main_stops_in_the_first_stage i w :
  truthy (context i) = true →
  default EmptyString (phenomenon i) ≠ EmptyString →
  (main builtin i w).1 = Raised (AttributeError "frame_practical") ∧
  evidence (agent (main builtin i w).2) = evidence (agent w) ∧
  Forall (λ s, count_step s (logger (main builtin i w).2) =
               count_step s (logger w))
    (gathering_steps ++ evaluation_steps ++ conclusion_steps ++ ["Monitoring"]).
Proof.
  intros Hc Hp.
  destruct (define_without_frame builtin i w eq_refl
              (builtin_gates_pass i Hc Hp)) as (Hr & _).
  destruct (define_keeps_ledger builtin i w) as (Hev & _ & Hlog).
  rewrite main_eq.
  destruct (define_proposition builtin i w) as [o w1].
  cbn [fst snd] in *. subst o.
  split; [reflexivity|]. split; [exact Hev | exact Hlog].
Qed.

Lemma main_stops_in_the_first_stage_witness :
  truthy (context main_input) = true ∧
  default EmptyString (phenomenon main_input) ≠ EmptyString ∧
  (main builtin main_input fresh).1 =
    Raised (AttributeError "frame_practical").
Proof.
  split; [reflexivity|]. split; [discriminate|].
  apply (main_stops_in_the_first_stage main_input fresh);
    [reflexivity|discriminate].
Defined.

Lemma framed_gates_pass frame i :
  truthy (context i) = true →
  default EmptyString (phenomenon i) ≠ EmptyString →
  py_in "leads to"
    (frame (py_replace "causes" "leads to" (hypothesis_text i)) (use_case i))
    = true →
  Forall (λ h, g_verdict h = Some true) (definition_gates (framed frame) i).
Proof.
  intros Hc Hp Hf.
  unfold definition_gates.
  cbn [frame_practical framed scripted s_frame app].
  repeat apply Forall_cons_2; try apply Forall_nil_2; cbn [g_verdict]; f_equal.
  - exact Hc.
  - rewrite bool_decide_eq_false_2 by exact Hp. reflexivity.
  - apply hypothesis_text_causes.
  - apply bool_decide_eq_true_2, clarified_length, Hp.
  - exact Hf.
Qed.

(** X27.  With the missing method supplied by a framing that keeps the
    words looked for by the actionability check, the script of [__main__]
    runs through all four stages on any input with a context and a
    phenomenon, and returns the positive answer: the framed, clarified text
    of line 48 as the statement, and as scores those at entry with the
    prior of each initial premise and then the posterior. *)
Theorem main_with_a_frame_returns_truth frame i w :
  truthy (context i) = true →
  default EmptyString (phenomenon i) ≠ EmptyString →
  py_in "leads to"
    (frame (py_replace "causes" "leads to" (hypothesis_text i)) (use_case i))
    = true →
  (main (framed frame) i w).1 =
    Returned
      (Truth
         (frame (py_replace "causes" "leads to" (hypothesis_text i))
            (use_case i))
         (<["posterior" := 0.85%Q]>
            (with_priors (default [] (initial_premises i))
               (confidence_scores (agent w))))).
Proof.
  intros Hc Hp Hf.
  pose proof (framed_gates_pass frame i Hc Hp Hf) as Hg.
  destruct (define_returns (framed frame) frame i w (VStr "Expert")
              eq_refl Hg eq_refl) as (Hd & Hsc).
  assert (statement (agent (define_proposition (framed frame) i w).2) =
          frame (py_replace "causes" "leads to" (hypothesis_text i))
            (use_case i)) as Hst.
  { unfold definition_gates, hypothesis_text in *.
    cbn [frame_practical framed scripted s_frame app] in Hg.
    repeat (apply Forall_cons in Hg as [? Hg]).
    cbn [g_verdict] in *. simplify_eq.
    assert (frame_practical (framed frame) = Some frame) as F
      by reflexivity.
    remember (define_proposition (framed frame) i w) as run eqn:Hrun.
    unfold define_proposition in Hrun; run_def Hrun.
    all: subst run; try discriminate.
    reflexivity. }
  destruct (premises_loop_all_clear (framed frame)
              (length (default [] (initial_premises i))) 0
              (set_premises (default [] (initial_premises i)) (agent w)))
    as (_ & Hpr).
  { apply Forall_forall. intros p _. reflexivity. }
  { cbn. lia. }
  cbn [drop premises confidence_scores set_premises] in Hpr.
  rewrite main_eq.
  destruct (define_proposition (framed frame) i w) as [o w1].
  cbn [fst snd] in *. subst o.
  assert (Forall (λ h, g_verdict h = Some true)
            (evaluation_gates (framed frame)
               (evidence (agent (gathered (framed frame) i w1)))
               (agent (gathered (framed frame) i w1))
               (agent (evaluate_proposition (framed frame)
                         (evidence (agent (gathered (framed frame) i w1)))
                         (gathered (framed frame) i w1)).2))) as He
    by (unfold evaluation_gates;
        repeat (apply Forall_cons_2; [reflexivity|]); apply Forall_nil_2).
  pose proof (evaluate_agrees _ _ _ He) as Hx.
  destruct (evaluate_returned _ _ _ _ Hx) as (_ & Hs3 & _ & _ & Hc3).
  destruct (evaluate_proposition (framed frame)
              (evidence (agent (gathered (framed frame) i w1)))
              (gathered (framed frame) i w1)) as [o3 w3].
  cbn [fst snd e_confidence] in *. subst o3.
  rewrite gathered_statement in Hs3. rewrite gathered_scores in Hc3.
  rewrite conclude_agrees
    by (unfold conclusion_gates, soft_gates; cbn [app];
        repeat (apply Forall_cons_2; [reflexivity|]); apply Forall_nil_2).
  rewrite Hs3, Hc3, Hst, Hsc.
  unfold identify_premises. cbn [premises set_premises].
  rewrite Hpr. reflexivity.
Qed.

Lemma main_with_a_frame_returns_truth_witness :
  truthy (context main_input) = true ∧
  default EmptyString (phenomenon main_input) ≠ EmptyString ∧
  (main (framed (λ s _, s)) main_input fresh).1 =
    Returned
      (Truth "Employee recognition leads to increased productivity."
         (<["posterior" := 0.85%Q]>
            (with_priors ["Recognition motivates"; "Effort impacts output"]
               ∅))).
Proof.
  split; [reflexivity|]. split; [discriminate|].
  apply (main_with_a_frame_returns_truth (λ s _, s) main_input fresh);
    [reflexivity|discriminate|reflexivity].
Defined.

(** ** Helpers met on the way *)

(** X28.  With the built-in [review_credentials], [gather_evidence] writes
    back the reliability the expert data already has, so that every entry
    of the expert data reads as before, or the default 0.0 when it has
    none, as on a new agent. *)
Theorem builtin_review_of_credentials ctx w key :
  dict_find key (expert_data (agent (gather_evidence builtin ctx w).2)) =
  if bool_decide (key = "reliability")
  then Some (default (VFloat 0.0%Q)
               (dict_find "reliability" (expert_data (agent w))))
  else dict_find key (expert_data (agent w)).
Proof.
  rewrite <- gathered_eq.
  destruct (gathered_expert builtin ctx w) as [-> _].
  destruct (decide (key = "reliability")) as [->|Hne].
  - rewrite bool_decide_eq_true_2 by reflexivity.
    apply dict_find_dict_set.
  - rewrite bool_decide_eq_false_2 by exact Hne.
    by apply dict_find_dict_set_ne.
Qed.

(** X29.  Of two initial premises the first of which is not clear, the
    second is never examined: removing the first moves it under the index
    the loop has just left, so it stays in the agent whatever its clarity
    and no prior is written. *)
Theorem second_premise_escapes m i w p1 p2 :
  truthy (context i) = true →
  initial_premises i = Some [p1; p2] →
  clear_enough (evaluate_clarity m p1) = false →
  premises (agent (define_proposition m i w).2) = [p2] ∧
  confidence_scores (agent (define_proposition m i w).2) =
    confidence_scores (agent w).
Proof.
  intros Hc Hi Hclear.
  destruct (define_premises m i w Hc) as [-> ->].
  unfold after_premises, identify_premises. rewrite Hi.
  cbn. rewrite Hclear. cbn.
  rewrite bool_decide_eq_true_2 by reflexivity.
  split; reflexivity.
Qed.

Lemma second_premise_escapes_witness :
  clear_enough (evaluate_clarity (scripted vague_script) "Unclear two")
    = false ∧
  premises
    (agent (define_proposition (scripted vague_script)
              (with_premises ["Unclear one"; "Unclear two"]) fresh).2)
    = ["Unclear two"].
Proof.
  split; [reflexivity|].
  apply (second_premise_escapes (scripted vague_script)
           (with_premises ["Unclear one"; "Unclear two"]) fresh
           "Unclear one" "Unclear two"); reflexivity.
Defined.
